(** * Briefer container bootstrapper: [docker/setup/setup.py]

    A shallow embedding of the provisioning script and the properties of
    its configuration store, readiness wait, credential rotation,
    migration runner and orchestration.

    Modelling choices.
    - A configuration document is a Python [dict] from key to value.  Both
      are strings (every value the script writes is one), and insertion
      order is kept, because [json.dump] serialises in that order.
    - The file system is a finite map from path to file; a file carries its
      content, its owner (uid, gid) and its mode.  The two configuration
      directories are created up front by [main] ([os.makedirs]) and are
      not represented.
    - What the script cannot control is gathered in a [host]: the process
      environment, the account databases, the bytes [os.urandom] will
      deliver, whether the k-th connection attempt to PostgreSQL is
      accepted, whether a statement executes, and the exit status of the
      migration child for a given child environment.
    - The script is sequential; a run maps a [state] to an [outcome]: it
      returns, raises, or is still inside the [while True] readiness loop
      when the fuel given to that loop is used up.
    - Visible effects are recorded in a trace of events.  Log lines are not
      recorded.  [time.sleep(0.3)] is recorded in milliseconds. *)

From Stdlib Require Import ZArith NArith Ascii String.
From stdpp Require Import gmap strings list fin_maps.

Open Scope string_scope.
Open Scope list_scope.

(** ** Insertion-ordered dictionaries *)

Module Dict.

Definition dict := list (string * string).

(** [k in d] *)
Fixpoint mem (k : string) (d : dict) : bool :=
  match d with
  | [] => false
  | (k', _) :: d' => if String.eqb k k' then true else mem k d'
  end.

(** [d.get(k)] *)
Fixpoint get (k : string) (d : dict) : option string :=
  match d with
  | [] => None
  | (k', v) :: d' => if String.eqb k k' then Some v else get k d'
  end.

(** [d[k] = v]: the value is replaced in place, a new key goes last. *)
Fixpoint set (k v : string) (d : dict) : dict :=
  match d with
  | [] => [(k, v)]
  | (k', v') :: d' =>
      if String.eqb k k' then (k', v) :: d' else (k', v') :: set k v d'
  end.

Definition keys (d : dict) : list string := map fst d.

End Dict.

Import Dict.

(** ** Files, events, exceptions *)

(** What a file holds: nothing, as a marker does; a JSON object whose
    values are strings; or text that is not valid JSON.  [json.load]
    raises [JSONDecodeError] on the first and the last.  A file holding
    valid JSON of another shape (an array, a number, an object with other
    values) is not represented. *)
Inductive content :=
| Empty
| Json (d : dict)
| Corrupt.

Record file := File {
  fcontent : content;
  fowner : N * N;
  fmode : N
}.

Inductive event :=
| Touch (path : string)
| Chown (path : string) (uid gid : N)
| Chmod (path : string) (mode : N)
| WriteJson (path : string) (d : dict)
| Unlink (path : string)
| Connect (user password host port : string) (accepted : bool)
| Sleep (ms : N)
| Execute (sql : string)
| Commit
| System (cmd : string)
| Spawn (argv : list string) (env : gmap string string) (cwd : string) (rc : Z).

Inductive exn :=
| FileNotFoundError (path : string)
| JSONDecodeError (path : string)
| KeyError (key : string)
| OperationalError
| DatabaseError (sql : string)
| CalledProcessError (rc : Z).

(** ** The host and the state of a run *)

Record host := Host {
  environ : gmap string string;
  passwd : gmap string N;
  group : gmap string N;
  entropy : nat -> Byte.byte;
  pg_accepts : nat -> bool;
  pg_executes : string -> bool;
  npx : gmap string string -> Z
}.

Record state := State {
  fs : gmap string file;
  drawn : nat;
  attempts : nat;
  trace : list event
}.

Definition set_fs (f : gmap string file) (s : state) : state :=
  State f (drawn s) (attempts s) (trace s).
Definition set_drawn (n : nat) (s : state) : state :=
  State (fs s) n (attempts s) (trace s).
Definition set_attempts (n : nat) (s : state) : state :=
  State (fs s) (drawn s) n (trace s).
Definition emit (e : event) (s : state) : state :=
  State (fs s) (drawn s) (attempts s) (trace s ++ [e]).

Inductive outcome (A : Type) :=
| Done (a : A) (s : state)
| Raised (e : exn) (s : state)
| Waiting (s : state).

Arguments Done {A} a s.
Arguments Raised {A} e s.
Arguments Waiting {A} s.

Definition final {A} (o : outcome A) : state :=
  match o with
  | Done _ s => s
  | Raised _ s => s
  | Waiting s => s
  end.

(** Exit status of the interpreter: 0 on return, 1 on an uncaught
    exception, none while the process is still running. *)
Definition exit_status {A} (o : outcome A) : option Z :=
  match o with
  | Done _ _ => Some 0%Z
  | Raised _ _ => Some 1%Z
  | Waiting _ => None
  end.

Definition M (A : Type) := state -> outcome A.

Definition ret {A} (a : A) : M A := fun s => Done a s.

Definition bind {A B} (m : M A) (f : A -> M B) : M B :=
  fun s =>
    match m s with
    | Done a s' => f a s'
    | Raised e s' => Raised e s'
    | Waiting s' => Waiting s'
    end.

Definition raise {A} (e : exn) : M A := fun s => Raised e s.

Definition modify (f : state -> state) : M unit := fun s => Done tt (f s).

Notation "'do' x <- m ; k" := (bind m (fun x => k))
  (at level 10, x name, m at level 100, k at level 200).
Notation "'run' m ; k" := (bind m (fun _ => k))
  (at level 10, m at level 100, k at level 200).

(** [for x in l: body(x)] *)
Fixpoint for_each {A} (body : A -> M unit) (l : list A) : M unit :=
  match l with
  | [] => ret tt
  | x :: l' => run body x; for_each body l'
  end.

(** ** Hexadecimal rendering, [bytes.hex()] *)

Definition hex_digit (n : N) : Ascii.ascii :=
  match String.get (N.to_nat n) "0123456789abcdef" with
  | Some c => c
  | None => "f"%char
  end.

Definition hex_byte (b : Byte.byte) : string :=
  let n := Byte.to_N b in
  String (hex_digit (n / 16)) (String (hex_digit (n mod 16)) EmptyString).

Fixpoint hex (bs : list Byte.byte) : string :=
  match bs with
  | [] => EmptyString
  | b :: bs' => hex_byte b +:+ hex bs'
  end.

(** ** Paths *)

Definition Path (dir name : string) : string := dir +:+ "/" +:+ name.

Definition APPS_CONFIG_DIR : string := "/home/briefer/.config/briefer".
Definition JUPYTER_CONFIG_DIR : string := "/home/jupyteruser/.config/briefer".

Definition get_config_path (dir : string) : string := Path dir "briefer.json".

(** [path] is [dir] or lies below it. *)
Definition under (dir path : string) : bool :=
  String.eqb dir path || String.prefix (dir +:+ "/") path.

(** ** File-system primitives *)

(** A file created by the script, which runs as root with the usual umask. *)
Definition created (c : content) : file := File c (0%N, 0%N) 420%N.

(** [Path.exists()] *)
Definition path_exists (path : string) : M bool :=
  fun s => Done (bool_decide (is_Some (fs s !! path))) s.

(** [Path.touch()]: an existing file keeps its content. *)
Definition touch (path : string) : M unit :=
  fun s =>
    let f := match fs s !! path with
             | Some f => f
             | None => created Empty
             end in
    Done tt (emit (Touch path) (set_fs (<[path := f]> (fs s)) s)).

(** [Path.unlink()] *)
Definition unlink (path : string) : M unit :=
  fun s =>
    match fs s !! path with
    | Some _ => Done tt (emit (Unlink path) (set_fs (delete path (fs s)) s))
    | None => Raised (FileNotFoundError path) s
    end.

(** [os.chown(path, uid, gid)] *)
Definition chown (path : string) (uid gid : N) : M unit :=
  fun s =>
    match fs s !! path with
    | Some f =>
        Done tt (emit (Chown path uid gid)
                   (set_fs (<[path := File (fcontent f) (uid, gid) (fmode f)]> (fs s)) s))
    | None => Raised (FileNotFoundError path) s
    end.

(** [os.chmod(path, mode)] *)
Definition chmod (path : string) (mode : N) : M unit :=
  fun s =>
    match fs s !! path with
    | Some f =>
        Done tt (emit (Chmod path mode)
                   (set_fs (<[path := File (fcontent f) (fowner f) mode]> (fs s)) s))
    | None => Raised (FileNotFoundError path) s
    end.

(** [with open(path, 'r') as f: json.load(f)] *)
Definition json_load (path : string) : M dict :=
  fun s =>
    match fs s !! path with
    | None => Raised (FileNotFoundError path) s
    | Some f =>
        match fcontent f with
        | Json d => Done d s
        | _ => Raised (JSONDecodeError path) s
        end
    end.

(** [with open(path, 'w') as f: json.dump(d, f, indent=4)]: an existing
    file is truncated and keeps its owner and mode. *)
Definition json_dump (path : string) (d : dict) : M unit :=
  fun s =>
    let f := match fs s !! path with
             | Some f => File (Json d) (fowner f) (fmode f)
             | None => created (Json d)
             end in
    Done tt (emit (WriteJson path d) (set_fs (<[path := f]> (fs s)) s)).

(** [d[k]] *)
Definition getitem (d : dict) (k : string) : M string :=
  match get k d with
  | Some v => ret v
  | None => raise (KeyError k)
  end.

Definition sleep (ms : N) : M unit := modify (emit (Sleep ms)).

(** ** The script *)

Section Script.

Variable h : host.

(** [os.urandom(size)]: the next [size] bytes of the host's entropy. *)
Definition urandom (size : nat) : M (list Byte.byte) :=
  fun s =>
    Done (map (entropy h) (seq (drawn s) size)) (set_drawn (drawn s + size) s).

Definition get_random_secret (size : nat) : M string :=
  do bs <- urandom size;
  ret (hex bs).

(** [pwd.getpwnam(name).pw_uid] *)
Definition getpwnam (name : string) : M N :=
  match passwd h !! name with
  | Some uid => ret uid
  | None => raise (KeyError name)
  end.

(** [grp.getgrnam(name).gr_gid] *)
Definition getgrnam (name : string) : M N :=
  match group h !! name with
  | Some gid => ret gid
  | None => raise (KeyError name)
  end.

(** The dictionary display is evaluated top to bottom, so the secrets are
    drawn in the order of their keys. *)
Definition generate_default_config : M dict :=
  do jupyter_token <- get_random_secret 32;
  do ai_basic_auth_username <- get_random_secret 8;
  do ai_basic_auth_password <- get_random_secret 8;
  do login_jwt_secret <- get_random_secret 32;
  do auth_jwt_secret <- get_random_secret 32;
  do environment_variables_encryption_key <- get_random_secret 32;
  do datasources_encryption_key <- get_random_secret 32;
  do workspace_secrets_encryption_key <- get_random_secret 32;
  ret [ ("NODE_ENV", "production");
        ("LOG_LEVEL", "info");
        ("POSTGRES_USERNAME", "briefer");
        ("POSTGRES_PASSWORD", "briefer");
        ("POSTGRES_HOSTNAME", "localhost");
        ("POSTGRES_PORT", "5432");
        ("POSTGRES_DATABASE", "briefer");
        ("JUPYTER_TOKEN", jupyter_token);
        ("AI_BASIC_AUTH_USERNAME", ai_basic_auth_username);
        ("AI_BASIC_AUTH_PASSWORD", ai_basic_auth_password);
        ("LOGIN_JWT_SECRET", login_jwt_secret);
        ("AUTH_JWT_SECRET", auth_jwt_secret);
        ("ENVIRONMENT_VARIABLES_ENCRYPTION_KEY", environment_variables_encryption_key);
        ("DATASOURCES_ENCRYPTION_KEY", datasources_encryption_key);
        ("WORKSPACE_SECRETS_ENCRYPTION_KEY", workspace_secrets_encryption_key) ].

(** Body of the loop of [get_config]. *)
Definition get_config_step (cfg : dict) (item : string * string) : dict :=
  let (k, default_value) := item in
  match environ h !! k with
  | Some v => set k v cfg
  | None => if mem k cfg then cfg else set k default_value cfg
  end.

Definition get_config (dir : string) : M dict :=
  let fpath := get_config_path dir in
  do cfg <- json_load fpath;
  do defaults <- generate_default_config;
  ret (fold_left get_config_step defaults cfg).

(** Body of the loop of [generate_apps_config]. *)
Definition generate_apps_config_step (cfg : dict) (k : string) : dict :=
  match environ h !! k with
  | Some v => set k v cfg
  | None => cfg
  end.

Definition generate_apps_config : M dict :=
  let fpath := get_config_path APPS_CONFIG_DIR in
  do cfg <- generate_default_config;
  let cfg := fold_left generate_apps_config_step (keys cfg) cfg in
  run json_dump fpath cfg;
  do uid <- getpwnam "briefer";
  do gid <- getgrnam "briefer";
  run chown fpath uid gid;
  run chmod fpath 448;
  ret cfg.

(** [psycopg2.connect(...)]; the result tells whether it was accepted. *)
Definition connect (user password host port : string) : M bool :=
  fun s =>
    let ok := pg_accepts h (attempts s) in
    Done ok (emit (Connect user password host port ok)
               (set_attempts (S (attempts s)) s)).

(** [cur.execute(sql)] *)
Definition execute (sql : string) : M unit :=
  fun s =>
    if pg_executes h sql
    then Done tt (emit (Execute sql) s)
    else Raised (DatabaseError sql) (emit (Execute sql) s).

Definition commit : M unit := modify (emit Commit).

(** The [while True] loop of [setup_apps]; [fuel] bounds its iterations. *)
Fixpoint setup_apps_wait (fuel : nat) : M unit :=
  match fuel with
  | O => fun s => Waiting s
  | S fuel' =>
      do ok <- connect "briefer" "briefer" "localhost" "5432";
      if ok then ret tt
      else run sleep 300; setup_apps_wait fuel'
  end.

(** The second [with psycopg2.connect(...)] block of [setup_apps]. *)
Definition setup_apps_rotate (cfg : dict) : M unit :=
  do ok <- connect "briefer" "briefer" "localhost" "5432";
  if ok then
    do password <- getitem cfg "POSTGRES_PASSWORD";
    run execute ("ALTER USER briefer WITH PASSWORD '" +:+ password +:+ "'");
    commit
  else raise OperationalError.

(** [subprocess.run(argv, env=env, cwd=cwd).returncode] *)
Definition subprocess_run (argv : list string) (env : gmap string string)
    (cwd : string) : M Z :=
  fun s => let rc := npx h env in Done rc (emit (Spawn argv env cwd rc) s).

Definition run_migrations_step (env : gmap string string)
    (item : string * string) : gmap string string :=
  let (k, v) := item in
  match env !! k with
  | Some _ => env
  | None => <[k := v]> env
  end.

(** The environment handed to the migration child. *)
Definition run_migrations_env (default_env : list (string * string))
  : gmap string string :=
  fold_left run_migrations_step default_env (environ h).

Definition run_migrations (cfg : dict) : M unit :=
  do username <- getitem cfg "POSTGRES_USERNAME";
  do password <- getitem cfg "POSTGRES_PASSWORD";
  do hostname <- getitem cfg "POSTGRES_HOSTNAME";
  do port <- getitem cfg "POSTGRES_PORT";
  do database <- getitem cfg "POSTGRES_DATABASE";
  let default_env :=
    [ ("NODE_ENV", "production");
      ("POSTGRES_PRISMA_URL",
       "postgresql://" +:+ username +:+ ":" +:+ password +:+ "@" +:+ hostname
         +:+ ":" +:+ port +:+ "/" +:+ database +:+ "?schema=public") ] in
  let env := run_migrations_env default_env in
  do rc <- subprocess_run
             ["npx"; "prisma"; "migrate"; "deploy"; "--schema";
              "packages/database/prisma/schema.prisma"]
             env "/app/api/";
  if (rc =? 0)%Z then ret tt else raise (CalledProcessError rc).

Definition setup_apps (fuel : nat) : M dict :=
  let config_path := get_config_path APPS_CONFIG_DIR in
  do present <- path_exists config_path;
  let is_first_run := negb present in
  do cfg <- (if is_first_run then generate_apps_config
             else get_config APPS_CONFIG_DIR);
  run setup_apps_wait fuel;
  run setup_apps_rotate cfg;
  run run_migrations cfg;
  ret cfg.

(** [os.system('chown -R user:group dir')]: a failing command is ignored. *)
Definition chown_R (user grp dir : string) : M unit :=
  fun s =>
    let s' := emit (System ("chown -R " +:+ user +:+ ":" +:+ grp +:+ " " +:+ dir)) s in
    match passwd h !! user, group h !! grp with
    | Some uid, Some gid =>
        Done tt (set_fs
                   (map_imap (fun p f =>
                      Some (if under dir p
                            then File (fcontent f) (uid, gid) (fmode f)
                            else f)) (fs s)) s')
    | _, _ => Done tt s'
    end.

(** [os.system('chmod -R mode dir')], mode given in octal digits. *)
Definition chmod_R (digits : string) (mode : N) (dir : string) : M unit :=
  fun s =>
    let s' := emit (System ("chmod -R " +:+ digits +:+ " " +:+ dir)) s in
    Done tt (set_fs
               (map_imap (fun p f =>
                  Some (if under dir p
                        then File (fcontent f) (fowner f) mode
                        else f)) (fs s)) s').

Definition generate_jupyter_config : M unit :=
  let fpath := get_config_path JUPYTER_CONFIG_DIR in
  do apps_cfg <- get_config APPS_CONFIG_DIR;
  do token <- getitem apps_cfg "JUPYTER_TOKEN";
  let cfg := [("JUPYTER_TOKEN", token)] in
  run json_dump fpath cfg;
  run chown_R "jupyteruser" "jupyteruser" "/home/jupyteruser";
  chmod_R "700" 448 "/home/jupyteruser".

Definition setup_jupyter : M unit := generate_jupyter_config.

Definition setups : list (string * string) :=
  [ (APPS_CONFIG_DIR, "briefer"); (JUPYTER_CONFIG_DIR, "jupyteruser") ].

(** Body of the first loop of [main]. *)
Definition main_create_marker (item : string * string) : M unit :=
  let (dir, user) := item in
  let path := Path dir "setup" in
  run touch path;
  do uid <- getpwnam user;
  do gid <- getgrnam user;
  chown path uid gid.

(** Body of the second loop of [main]. *)
Definition main_remove_marker (item : string * string) : M unit :=
  let (path, user) := item in
  unlink (Path path "setup").

Definition main (fuel : nat) : M unit :=
  run for_each main_create_marker setups;
  do cfg <- setup_apps fuel;
  run setup_jupyter;
  for_each main_remove_marker setups.

End Script.

(** ** Documents named in the statements *)

(** The keys of the default document, in the order of the source. *)
Definition canonical_keys : list string :=
  [ "NODE_ENV"; "LOG_LEVEL"; "POSTGRES_USERNAME"; "POSTGRES_PASSWORD";
    "POSTGRES_HOSTNAME"; "POSTGRES_PORT"; "POSTGRES_DATABASE"; "JUPYTER_TOKEN";
    "AI_BASIC_AUTH_USERNAME"; "AI_BASIC_AUTH_PASSWORD"; "LOGIN_JWT_SECRET";
    "AUTH_JWT_SECRET"; "ENVIRONMENT_VARIABLES_ENCRYPTION_KEY";
    "DATASOURCES_ENCRYPTION_KEY"; "WORKSPACE_SECRETS_ENCRYPTION_KEY" ].

(** The default document built from the given eight secrets. *)
Definition default_document (secrets : list string) : dict :=
  combine canonical_keys
    (["production"; "info"; "briefer"; "briefer"; "localhost"; "5432"; "briefer"]
       ++ secrets).

(** Byte lengths of the secrets, in the order they are drawn. *)
Definition secret_sizes : list nat := [32; 8; 8; 32; 32; 32; 32; 32].

(** The secrets [generate_default_config] makes once [n] bytes of the
    host's entropy are used up. *)
Fixpoint secrets_from (h : host) (n : nat) (sizes : list nat) : list string :=
  match sizes with
  | [] => []
  | size :: sizes' =>
      hex (map (entropy h) (seq n size)) :: secrets_from h (n + size) sizes'
  end.

(** The document [generate_apps_config] builds once [n] bytes are drawn. *)
Definition apps_config (h : host) (n : nat) : dict :=
  fold_left (generate_apps_config_step h) canonical_keys
    (default_document (secrets_from h n secret_sizes)).


(** The keys whose default is a fresh random secret. *)
Definition secret_keys : list string := drop 7 canonical_keys.

(** The document [get_config] returns for a persisted document [d] once
    [n] bytes are drawn. *)
Definition merged_config (h : host) (n : nat) (d : dict) : dict :=
  fold_left (get_config_step h)
    (default_document (secrets_from h n secret_sizes)) d.

(** ** Events named in the statements *)

(** A connection attempt as [setup_apps] makes it. *)
Definition attempt (accepted : bool) : event :=
  Connect "briefer" "briefer" "localhost" "5432" accepted.

(** [n] refused attempts, each followed by its sleep of 300 ms. *)
Fixpoint refused (n : nat) : list event :=
  match n with
  | O => []
  | S n' => attempt false :: Sleep 300 :: refused n'
  end.

Definition is_connect (e : event) : bool :=
  match e with Connect _ _ _ _ _ => true | _ => false end.

Definition is_sleep (e : event) : bool :=
  match e with Sleep _ => true | _ => false end.

Definition is_execute (e : event) : bool :=
  match e with Execute _ => true | _ => false end.

Definition is_spawn (e : event) : bool :=
  match e with Spawn _ _ _ _ => true | _ => false end.

(** Events of the provisioning steps proper, [setup_apps] and
    [setup_jupyter]: no marker is touched or removed, and every connection
    is opened with the literal parameters. *)
Definition provisioning_event (e : event) : bool :=
  match e with
  | Touch _ | Unlink _ => false
  | Connect user password host port _ =>
      String.eqb user "briefer" && String.eqb password "briefer"
      && String.eqb host "localhost" && String.eqb port "5432"
  | _ => true
  end.

Definition provisioning (e : event) : Prop := provisioning_event e = true.

(** From [s] to [s']: the trace is extended by events that satisfy [P],
    and no file disappears. *)
Definition grows (P : event -> Prop) (s s' : state) : Prop :=
  (exists evs, trace s' = trace s ++ evs /\ Forall P evs) /\
  (forall path, is_Some (fs s !! path) -> is_Some (fs s' !! path)).

(** A computation all of whose runs, whatever their outcome, grow the
    state in that sense. *)
Definition steady {A} (P : event -> Prop) (m : M A) : Prop :=
  forall s, grows P s (final (m s)).

(** The connection URL [run_migrations] formats. *)
Definition prisma_url (username password hostname port database : string)
  : string :=
  "postgresql://" +:+ username +:+ ":" +:+ password +:+ "@" +:+ hostname
    +:+ ":" +:+ port +:+ "/" +:+ database +:+ "?schema=public".

(** The command line of the migration child. *)
Definition prisma_argv : list string :=
  ["npx"; "prisma"; "migrate"; "deploy"; "--schema";
   "packages/database/prisma/schema.prisma"].

(** The token [generate_jupyter_config] copies when the primary document on
    disk is [d] and [n] bytes of entropy are used up. *)
Definition jupyter_token (h : host) (n : nat) (d : dict) : string :=
  match environ h !! "JUPYTER_TOKEN" with
  | Some v => v
  | None =>
      match get "JUPYTER_TOKEN" d with
      | Some v => v
      | None => hex (map (entropy h) (seq n 32))
      end
  end.

(** ** Reading a password-change statement back

    The text of a statement as PostgreSQL reads it: the fixed words, then
    one string literal up to the end of the text, in which two quotes
    stand for one quote and a lone quote ends the literal. *)

(** The text after the opening quote, decoded; [None] when the literal is
    not closed or is followed by more text. *)
Fixpoint unquote (s : string) : option string :=
  match s with
  | EmptyString => None
  | String c rest =>
      if Ascii.eqb c "'" then
        match rest with
        | EmptyString => Some EmptyString
        | String c' rest' =>
            if Ascii.eqb c' "'" then option_map (String "'") (unquote rest')
            else None
        end
      else option_map (String c) (unquote rest)
  end.

Fixpoint strip_prefix (pre s : string) : option string :=
  match pre, s with
  | EmptyString, _ => Some s
  | String a pre', String b s' =>
      if Ascii.eqb a b then strip_prefix pre' s' else None
  | String _ _, EmptyString => None
  end.

(** The password a statement sets, when it is one well-formed
    password-change statement for the user briefer. *)
Definition password_change (sql : string) : option string :=
  match strip_prefix "ALTER USER briefer WITH PASSWORD '" sql with
  | Some body => unquote body
  | None => None
  end.

Fixpoint quote_free (s : string) : bool :=
  match s with
  | EmptyString => true
  | String c rest => negb (Ascii.eqb c "'") && quote_free rest
  end.

(** ** Files named in the statements *)

Definition apps_config_file : string := get_config_path APPS_CONFIG_DIR.
Definition jupyter_config_file : string := get_config_path JUPYTER_CONFIG_DIR.
Definition apps_marker : string := Path APPS_CONFIG_DIR "setup".
Definition jupyter_marker : string := Path JUPYTER_CONFIG_DIR "setup".

(** The marker at [path] once [main] has touched and chowned it. *)
Definition marker_file (s : state) (path : string) (uid gid : N) : file :=
  match fs s !! path with
  | Some f => File (fcontent f) (uid, gid) (fmode f)
  | None => File Empty (uid, gid) 420
  end.

(** The content of the file at [path], if there is one. *)
Definition content_at (s : state) (path : string) : option content :=
  fcontent <$> fs s !! path.

(** ** Concrete hosts and states *)

Module Fixture.

(** An entropy source that counts: byte [i] is [i mod 256]. *)
Definition counting (i : nat) : Byte.byte :=
  match Byte.of_N (N.of_nat i mod 256) with
  | Some b => b
  | None => Byte.x00
  end.

Definition accounts : gmap string N :=
  <["briefer" := 1000%N]> (<["jupyteruser" := 1001%N]> ∅).

(** A container whose database accepts connections from attempt [ready]
    on, executes every statement, and whose migrations exit with [rc]. *)
Definition container (env : gmap string string) (ready : nat) (rc : Z) : host :=
  Host env accounts accounts counting (fun k => Nat.leb ready k)
    (fun _ => true) (fun _ => rc).

(** A container whose database never accepts a connection. *)
Definition unreachable : host :=
  Host ∅ accounts accounts counting (fun _ => false) (fun _ => true)
    (fun _ => 0%Z).

(** First start: nothing on disk. *)
Definition first_start : state := State ∅ 0 0 [].

(** Restart: the primary document [d] is on disk. *)
Definition restart (d : dict) : state :=
  State {[ get_config_path APPS_CONFIG_DIR :=
             File (Json d) (1000%N, 1000%N) 448 ]} 0 0 [].

(** A persisted document that carries every secret. *)
Definition secrets_on_disk : dict :=
  [ ("LOG_LEVEL", "debug"); ("JUPYTER_TOKEN", "t0");
    ("AI_BASIC_AUTH_USERNAME", "u0"); ("AI_BASIC_AUTH_PASSWORD", "p0");
    ("LOGIN_JWT_SECRET", "l0"); ("AUTH_JWT_SECRET", "a0");
    ("ENVIRONMENT_VARIABLES_ENCRYPTION_KEY", "e0");
    ("DATASOURCES_ENCRYPTION_KEY", "d0");
    ("WORKSPACE_SECRETS_ENCRYPTION_KEY", "w0") ].

End Fixture.

(** ** Reading hexadecimal text back *)

Definition is_hex_digit (c : Ascii.ascii) : bool :=
  existsb (Ascii.eqb c) (list_ascii_of_string "0123456789abcdef").

Fixpoint string_forall (P : Ascii.ascii -> bool) (s : string) : bool :=
  match s with
  | EmptyString => true
  | String c rest => P c && string_forall P rest
  end.

(** The value of a hexadecimal digit. *)
Definition digit_value (c : Ascii.ascii) : option N :=
  match String.index 0 (String c EmptyString) "0123456789abcdef" with
  | Some i => Some (N.of_nat i)
  | None => None
  end.

(** Inverse of [hex]: two digits make a byte. *)
Fixpoint unhex (s : string) : option (list Byte.byte) :=
  match s with
  | EmptyString => Some []
  | String c1 (String c2 rest) =>
      match digit_value c1, digit_value c2, unhex rest with
      | Some hi, Some lo, Some bs =>
          match Byte.of_N (16 * hi + lo) with
          | Some b => Some (b :: bs)
          | None => None
          end
      | _, _, _ => None
      end
  | String _ EmptyString => None
  end.

(** The keys [run_migrations] reads, in the order it reads them. *)
Definition postgres_keys : list string :=
  [ "POSTGRES_USERNAME"; "POSTGRES_PASSWORD"; "POSTGRES_HOSTNAME";
    "POSTGRES_PORT"; "POSTGRES_DATABASE" ].

(** Where the secret of a key lies in the 208 bytes one call of
    [generate_default_config] draws: its offset and its length. *)
Definition secret_segment (K : string) : option (nat * nat) :=
  if String.eqb K "JUPYTER_TOKEN" then Some (0, 32)
  else if String.eqb K "AI_BASIC_AUTH_USERNAME" then Some (32, 8)
  else if String.eqb K "AI_BASIC_AUTH_PASSWORD" then Some (40, 8)
  else if String.eqb K "LOGIN_JWT_SECRET" then Some (48, 32)
  else if String.eqb K "AUTH_JWT_SECRET" then Some (80, 32)
  else if String.eqb K "ENVIRONMENT_VARIABLES_ENCRYPTION_KEY" then Some (112, 32)
  else if String.eqb K "DATASOURCES_ENCRYPTION_KEY" then Some (144, 32)
  else if String.eqb K "WORKSPACE_SECRETS_ENCRYPTION_KEY" then Some (176, 32)
  else None.

(** ** The run of [main] around the rotation *)





(** Exposes the fields of the states built by the primitives. *)
Ltac unfold_state :=
  unfold emit, set_fs, set_drawn, set_attempts;
  cbn [fs drawn attempts trace].

(** ** Facts about dictionaries *)

Section DictFacts.

Implicit Types (k v : string) (d : dict).

Lemma mem_true_get k d : mem k d = true -> exists v, get k d = Some v.
Proof.
  induction d as [|[k' v'] d IH]; simpl; [discriminate|].
  destruct (String.eqb k k'); eauto.
Qed.

Lemma mem_false_get k d : mem k d = false -> get k d = None.
Proof.
  induction d as [|[k' v'] d IH]; simpl; [reflexivity|].
  destruct (String.eqb k k'); [discriminate | exact IH].
Qed.

Lemma get_Some_mem k v d : get k d = Some v -> mem k d = true.
Proof.
  intros H. destruct (mem k d) eqn:E; [reflexivity|].
  apply mem_false_get in E. congruence.
Qed.

Lemma get_set_eq k v d : get k (set k v d) = Some v.
Proof.
  induction d as [|[k' v'] d IH]; simpl.
  - now rewrite String.eqb_refl.
  - destruct (String.eqb k k') eqn:E; simpl; rewrite E; [reflexivity | exact IH].
Qed.

Lemma get_set_ne k k' v d : k <> k' -> get k (set k' v d) = get k d.
Proof.
  intros Hne. induction d as [|[k0 v0] d IH]; simpl.
  - destruct (String.eqb_spec k k'); [contradiction | reflexivity].
  - destruct (String.eqb_spec k' k0) as [->|]; simpl.
    + destruct (String.eqb_spec k k0); [contradiction | reflexivity].
    + destruct (String.eqb k k0); [reflexivity | exact IH].
Qed.

Lemma mem_set k k' v d : mem k d = true -> mem k (set k' v d) = true.
Proof.
  induction d as [|[k0 v0] d IH]; simpl; [discriminate|].
  destruct (String.eqb k' k0); simpl; destruct (String.eqb k k0); auto.
Qed.

Lemma keys_set_mem k v d : mem k d = true -> keys (set k v d) = keys d.
Proof.
  induction d as [|[k' v'] d IH]; simpl; [discriminate|].
  destruct (String.eqb k k'); simpl; [reflexivity|].
  intros H. now rewrite IH.
Qed.

End DictFacts.

Lemma generate_default_config_run h s :
  generate_default_config h s =
    Done (default_document (secrets_from h (drawn s) secret_sizes))
         (set_drawn (drawn s + 208) s).
Proof.
  unfold generate_default_config, get_random_secret, urandom, bind, ret.
  cbn [drawn set_drawn fs attempts trace secrets_from secret_sizes].
  f_equal. unfold set_drawn. cbn [drawn fs attempts trace]. f_equal. lia.
Qed.

Lemma keys_default_document h n :
  keys (default_document (secrets_from h n secret_sizes)) = canonical_keys.
Proof. reflexivity. Qed.

Lemma mem_default_document K h n :
  K ∈ canonical_keys ->
  mem K (default_document (secrets_from h n secret_sizes)) = true.
Proof.
  intros HK. apply list_elem_of_In in HK. simpl in HK.
  repeat (destruct HK as [<-|HK]; [reflexivity|]). contradiction.
Qed.

(** What the loop of [get_config] leaves under a key. *)
Lemma get_fold_get_config_step h K defaults cfg :
  get K (fold_left (get_config_step h) defaults cfg) =
    if mem K defaults then
      match environ h !! K with
      | Some v => Some v
      | None =>
          match get K cfg with
          | Some v => Some v
          | None => get K defaults
          end
      end
    else get K cfg.
Proof.
  revert cfg. induction defaults as [|[k dv] defaults IH]; intros cfg;
    [reflexivity|].
  cbn [fold_left mem get]. rewrite IH. clear IH.
  unfold get_config_step.
  destruct (String.eqb_spec K k) as [->|Hne].
  - destruct (environ h !! k) as [v|] eqn:Henv.
    + rewrite get_set_eq. now destruct (mem k defaults).
    + destruct (mem k cfg) eqn:Hmem.
      * destruct (mem_true_get _ _ Hmem) as [v Hv]. rewrite Hv.
        now destruct (mem k defaults).
      * rewrite get_set_eq, (mem_false_get _ _ Hmem).
        now destruct (mem k defaults).
  - assert (Hsame : get K
        match environ h !! k with
        | Some v => set k v cfg
        | None => if mem k cfg then cfg else set k dv cfg
        end = get K cfg).
    { destruct (environ h !! k); [now apply get_set_ne|].
      destruct (mem k cfg); [reflexivity | now apply get_set_ne]. }
    now rewrite Hsame.
Qed.

(** What the loop of [generate_apps_config] leaves under a key. *)
Lemma get_fold_generate_apps_config_step h K ks cfg :
  get K (fold_left (generate_apps_config_step h) ks cfg) =
    match environ h !! K with
    | Some v => if bool_decide (K ∈ ks) then Some v else get K cfg
    | None => get K cfg
    end.
Proof.
  revert cfg. induction ks as [|k ks IH]; intros cfg.
  - cbn [fold_left]. now destruct (environ h !! K).
  - cbn [fold_left]. rewrite IH. clear IH. unfold generate_apps_config_step.
    destruct (decide (K = k)) as [->|Hne].
    + destruct (environ h !! k) as [v|]; [|reflexivity].
      rewrite get_set_eq, (bool_decide_eq_true_2 (k ∈ k :: ks))
        by (apply elem_of_cons; now left).
      now destruct (bool_decide (k ∈ ks)).
    + assert (Hsame : get K
          match environ h !! k with
          | Some v => set k v cfg
          | None => cfg
          end = get K cfg).
      { destruct (environ h !! k); [now apply get_set_ne | reflexivity]. }
      rewrite Hsame.
      destruct (environ h !! K); [|reflexivity].
      now rewrite (bool_decide_ext (K ∈ k :: ks) (K ∈ ks))
        by (rewrite elem_of_cons; tauto).
Qed.

Lemma generate_apps_config_run h s uid gid :
  passwd h !! "briefer" = Some uid ->
  group h !! "briefer" = Some gid ->
  generate_apps_config h s =
    Done (apps_config h (drawn s))
      (State
         (<[get_config_path APPS_CONFIG_DIR :=
              File (Json (apps_config h (drawn s))) (uid, gid) 448]> (fs s))
         (drawn s + 208) (attempts s)
         (trace s ++
            [ WriteJson (get_config_path APPS_CONFIG_DIR) (apps_config h (drawn s));
              Chown (get_config_path APPS_CONFIG_DIR) uid gid;
              Chmod (get_config_path APPS_CONFIG_DIR) 448 ])).
Proof.
  intros Hu Hg. unfold generate_apps_config, bind.
  rewrite generate_default_config_run, keys_default_document.
  fold (apps_config h (drawn s)).
  unfold json_dump, getpwnam, getgrnam. rewrite Hu, Hg.
  unfold ret, chown, chmod, emit, set_fs, set_drawn.
  cbn [fs drawn attempts trace].
  rewrite lookup_insert_eq. cbn [fs drawn attempts trace fcontent fowner fmode].
  rewrite lookup_insert_eq. cbn [fs drawn attempts trace fcontent fowner fmode].
  rewrite !insert_insert_eq, <- !app_assoc. cbn [app].
  now destruct (fs s !! get_config_path APPS_CONFIG_DIR).
Qed.

Lemma json_load_run s path f d :
  fs s !! path = Some f -> fcontent f = Json d -> json_load path s = Done d s.
Proof. intros Hf Hd. unfold json_load. now rewrite Hf, Hd. Qed.

Lemma get_config_run h dir s f d :
  fs s !! get_config_path dir = Some f -> fcontent f = Json d ->
  get_config h dir s =
    Done (merged_config h (drawn s) d) (set_drawn (drawn s + 208) s).
Proof.
  intros Hf Hd. unfold get_config, bind.
  rewrite (json_load_run _ _ _ _ Hf Hd), generate_default_config_run.
  unfold ret, merged_config. reflexivity.
Qed.

(** ** Facts about the hexadecimal rendering *)

Lemma hex_cons b bs :
  hex (b :: bs) =
    String (hex_digit (Byte.to_N b / 16))
      (String (hex_digit (Byte.to_N b mod 16)) (hex bs)).
Proof. reflexivity. Qed.

Lemma hex_byte_value b :
  digit_value (hex_digit (Byte.to_N b / 16)) = Some (Byte.to_N b / 16)%N /\
  digit_value (hex_digit (Byte.to_N b mod 16)) = Some (Byte.to_N b mod 16)%N /\
  Byte.of_N (16 * (Byte.to_N b / 16) + Byte.to_N b mod 16) = Some b.
Proof. destruct b; repeat split; reflexivity. Qed.

Lemma unhex_hex bs : unhex (hex bs) = Some bs.
Proof.
  induction bs as [|b bs IH]; [reflexivity|].
  rewrite hex_cons. cbn [unhex].
  destruct (hex_byte_value b) as (-> & -> & ->). now rewrite IH.
Qed.

(** ** The configuration store *)

(** C1. For a canonical key K: [get_config], on any directory whose file
    holds a document, returns the environment variable's value when K is
    set in the environment, else the persisted value when the file has K,
    else the default generated in that call, so K is always present; and
    [generate_apps_config], in any state where the account briefer is
    known, returns and persists a document that holds the environment
    variable's value when K is set and the generated default otherwise. *)
Theorem env_over_persisted_over_default h K :
  K ∈ canonical_keys ->
  (forall dir s f d,
     fs s !! get_config_path dir = Some f -> fcontent f = Json d ->
     exists cfg s1 defaults s2,
       get_config h dir s = Done cfg s1 /\
       generate_default_config h s = Done defaults s2 /\
       get K cfg =
         match environ h !! K with
         | Some v => Some v
         | None => match get K d with
                   | Some v => Some v
                   | None => get K defaults
                   end
         end /\
       is_Some (get K cfg)) /\
  (forall s uid gid,
     passwd h !! "briefer" = Some uid -> group h !! "briefer" = Some gid ->
     exists cfg s1 defaults s2,
       generate_apps_config h s = Done cfg s1 /\
       generate_default_config h s = Done defaults s2 /\
       get K cfg =
         match environ h !! K with
         | Some v => Some v
         | None => get K defaults
         end /\
       is_Some (get K cfg) /\
       content_at s1 (get_config_path APPS_CONFIG_DIR) = Some (Json cfg)).
Proof.
  intros HK. split.
  - intros dir s f d Hf Hd. eexists _, _, _, _.
    split; [exact (get_config_run h dir s f d Hf Hd)|].
    split; [apply generate_default_config_run|].
    unfold merged_config. rewrite get_fold_get_config_step.
    rewrite (mem_default_document K h (drawn s) HK).
    split; [reflexivity|].
    destruct (environ h !! K); [eauto|].
    destruct (get K d); [eauto|].
    destruct (mem_true_get _ _ (mem_default_document K h (drawn s) HK)) as [v Hv].
    rewrite Hv. eauto.
  - intros s uid gid Hu Hg. eexists _, _, _, _.
    split; [exact (generate_apps_config_run h s uid gid Hu Hg)|].
    split; [apply generate_default_config_run|].
    unfold apps_config. rewrite get_fold_generate_apps_config_step.
    rewrite (bool_decide_eq_true_2 _ HK).
    split; [reflexivity|]. split.
    + destruct (environ h !! K); [eauto|].
      destruct (mem_true_get _ _ (mem_default_document K h (drawn s) HK))
        as [v Hv].
      rewrite Hv. eauto.
    + unfold content_at. cbn [fs]. now rewrite lookup_insert_eq.
Qed.

Lemma env_over_persisted_over_default_witness :
  let h := Fixture.container {[ "POSTGRES_PASSWORD" := "hunter2" ]} 0 0 in
  let d := [("POSTGRES_PASSWORD", "old"); ("LOG_LEVEL", "debug")] in
  "POSTGRES_PASSWORD" ∈ canonical_keys /\
  (fs (Fixture.restart d) !! get_config_path APPS_CONFIG_DIR
     = Some (File (Json d) (1000%N, 1000%N) 448) /\
   exists cfg s1,
     get_config h APPS_CONFIG_DIR (Fixture.restart d) = Done cfg s1 /\
     get "POSTGRES_PASSWORD" cfg = Some "hunter2") /\
  (fs Fixture.first_start !! get_config_path APPS_CONFIG_DIR = None /\
   passwd h !! "briefer" = Some 1000%N /\ group h !! "briefer" = Some 1000%N /\
   exists cfg s1,
     generate_apps_config h Fixture.first_start = Done cfg s1 /\
     get "POSTGRES_PASSWORD" cfg = Some "hunter2" /\
     content_at s1 (get_config_path APPS_CONFIG_DIR) = Some (Json cfg)).
Proof.
  intros h d.
  assert (HK : "POSTGRES_PASSWORD" ∈ canonical_keys)
    by (apply list_elem_of_In; vm_compute; tauto).
  destruct (env_over_persisted_over_default h "POSTGRES_PASSWORD" HK)
    as [Hload Hgen].
  split; [exact HK|]. split.
  - split; [reflexivity|].
    destruct (Hload APPS_CONFIG_DIR (Fixture.restart d) _ d eq_refl eq_refl)
      as (cfg & s1 & defaults & s2 & Hrun & _ & Hget & _).
    exists cfg, s1. split; [exact Hrun | exact Hget].
  - split; [reflexivity|]. split; [reflexivity|]. split; [reflexivity|].
    destruct (Hgen Fixture.first_start 1000%N 1000%N eq_refl eq_refl)
      as (cfg & s1 & defaults & s2 & Hrun & _ & Hget & _ & Hdisk).
    exists cfg, s1. split; [exact Hrun|]. split; [exact Hget | exact Hdisk].
Defined.

Lemma mem_get_config_step h k cfg item :
  mem k cfg = true -> mem k (get_config_step h cfg item) = true.
Proof.
  intros Hk. destruct item as [k' dv]. unfold get_config_step.
  destruct (environ h !! k'); [now apply mem_set|].
  destruct (mem k' cfg); [exact Hk | now apply mem_set].
Qed.

(** Two default documents give the same merge when they differ only
    under keys that the environment or the persisted document decides. *)
Lemma fold_get_config_step_covered h defs1 defs2 cfg :
  Forall2 (fun a b =>
             a.1 = b.1 /\
             (a.2 = b.2 \/ is_Some (environ h !! a.1) \/ mem a.1 cfg = true))
          defs1 defs2 ->
  fold_left (get_config_step h) defs1 cfg
    = fold_left (get_config_step h) defs2 cfg.
Proof.
  intros HF. revert cfg HF.
  induction defs1 as [|[k v1] defs1 IH] in defs2 |- *; intros cfg HF;
    inversion HF as [|? [k2 v2] ? ? [Hk Hcov] HF']; subst; [reflexivity|].
  cbn [fst snd] in Hk, Hcov. subst k2. cbn [fold_left].
  assert (Hstep : get_config_step h cfg (k, v1) = get_config_step h cfg (k, v2)).
  { unfold get_config_step. destruct Hcov as [->|[[v Hv]|Hm]];
      [reflexivity | now rewrite Hv |].
    rewrite Hm. now destruct (environ h !! k). }
  rewrite <- Hstep. apply IH.
  eapply Forall2_impl; [exact HF'|].
  intros a b [Hab Hc]. split; [exact Hab|].
  destruct Hc as [Hc|[Hc|Hc]]; auto using mem_get_config_step.
Qed.

Lemma merged_config_entropy_irrelevant h n n' d :
  (forall K, K ∈ secret_keys -> is_Some (environ h !! K) \/ mem K d = true) ->
  merged_config h n d = merged_config h n' d.
Proof.
  intros Hcov. unfold merged_config. apply fold_get_config_step_covered.
  cbn [default_document secrets_from secret_sizes canonical_keys combine app].
  repeat (constructor;
          [split; [reflexivity|]; cbn [fst snd];
           first [ left; reflexivity
                 | right; apply Hcov; apply list_elem_of_In; vm_compute; tauto ]|]).
  constructor.
Qed.

(** C2 as stated fails: a secret key that neither the environment nor the
    persisted document provides gets a new random value in every call. *)
Lemma get_config_twice_differs :
  let h := Fixture.container ∅ 0 0 in
  let s := Fixture.restart [("LOG_LEVEL", "debug")] in
  exists cfg1 s1 cfg2 s2,
    get_config h APPS_CONFIG_DIR s = Done cfg1 s1 /\
    get_config h APPS_CONFIG_DIR s1 = Done cfg2 s2 /\
    get "JUPYTER_TOKEN" cfg1
      = Some "000102030405060708090a0b0c0d0e0f101112131415161718191a1b1c1d1e1f" /\
    get "JUPYTER_TOKEN" cfg2
      = Some "d0d1d2d3d4d5d6d7d8d9dadbdcdddedfe0e1e2e3e4e5e6e7e8e9eaebecedeeef" /\
    cfg1 <> cfg2.
Proof.
  intros h s. eexists _, _, _, _.
  split; [vm_compute; reflexivity|].
  split; [vm_compute; reflexivity|].
  split; [reflexivity|]. split; [reflexivity|].
  intros H. apply (f_equal (get "JUPYTER_TOKEN")) in H. vm_compute in H.
  discriminate H.
Qed.

Lemma secrets_from_segment h n K off size :
  secret_segment K = Some (off, size) ->
  K ∈ secret_keys /\
  get K (default_document (secrets_from h n secret_sizes))
    = Some (hex (map (entropy h) (seq (n + off) size))).
Proof.
  unfold secret_segment.
  destruct (String.eqb_spec K "JUPYTER_TOKEN") as [->|_].
  { intros [= <- <-]. split; [apply list_elem_of_In; vm_compute; tauto|].
    now rewrite Nat.add_0_r. }
  destruct (String.eqb_spec K "AI_BASIC_AUTH_USERNAME") as [->|_].
  { intros [= <- <-]. split; [apply list_elem_of_In; vm_compute; tauto|].
    reflexivity. }
  destruct (String.eqb_spec K "AI_BASIC_AUTH_PASSWORD") as [->|_].
  { intros [= <- <-]. split; [apply list_elem_of_In; vm_compute; tauto|].
    replace (n + 40) with (n + 32 + 8) by lia. reflexivity. }
  destruct (String.eqb_spec K "LOGIN_JWT_SECRET") as [->|_].
  { intros [= <- <-]. split; [apply list_elem_of_In; vm_compute; tauto|].
    replace (n + 48) with (n + 32 + 8 + 8) by lia. reflexivity. }
  destruct (String.eqb_spec K "AUTH_JWT_SECRET") as [->|_].
  { intros [= <- <-]. split; [apply list_elem_of_In; vm_compute; tauto|].
    replace (n + 80) with (n + 32 + 8 + 8 + 32) by lia. reflexivity. }
  destruct (String.eqb_spec K "ENVIRONMENT_VARIABLES_ENCRYPTION_KEY") as [->|_].
  { intros [= <- <-]. split; [apply list_elem_of_In; vm_compute; tauto|].
    replace (n + 112) with (n + 32 + 8 + 8 + 32 + 32) by lia. reflexivity. }
  destruct (String.eqb_spec K "DATASOURCES_ENCRYPTION_KEY") as [->|_].
  { intros [= <- <-]. split; [apply list_elem_of_In; vm_compute; tauto|].
    replace (n + 144) with (n + 32 + 8 + 8 + 32 + 32 + 32) by lia. reflexivity. }
  destruct (String.eqb_spec K "WORKSPACE_SECRETS_ENCRYPTION_KEY") as [->|_].
  { intros [= <- <-]. split; [apply list_elem_of_In; vm_compute; tauto|].
    replace (n + 176) with (n + 32 + 8 + 8 + 32 + 32 + 32 + 32) by lia.
    reflexivity. }
  discriminate.
Qed.

(** What [get_config] leaves under a secret key that neither the
    environment nor the persisted document provides. *)
Lemma get_merged_uncovered h n d K off size :
  secret_segment K = Some (off, size) ->
  environ h !! K = None -> get K d = None ->
  get K (merged_config h n d) = Some (hex (map (entropy h) (seq (n + off) size))).
Proof.
  intros Hseg Henv Hd.
  destruct (secrets_from_segment h n K off size Hseg) as [HK Hdef].
  unfold merged_config. rewrite get_fold_get_config_step.
  rewrite mem_default_document
    by (apply list_elem_of_In; apply list_elem_of_In in HK;
        vm_compute in HK; vm_compute; tauto).
  now rewrite Henv, Hd.
Qed.

Lemma get_config_keeps_fs h dir s : fs (final (get_config h dir s)) = fs s.
Proof.
  unfold get_config, bind, json_load.
  destruct (fs s !! get_config_path dir) as [f|]; [|reflexivity].
  destruct (fcontent f); reflexivity.
Qed.

(** C2, amended. [get_config] never changes the file system, whatever
    its outcome.  On a file that holds a document, two successive calls
    return; they return the same document whenever every secret key is set
    in the environment or present in the persisted document; and under a
    secret key that is in neither, each call returns the rendering of the
    bytes of entropy drawn in that call, so the two calls agree on that
    key only if the same bytes were delivered twice. *)
Theorem get_config_idempotent h dir s :
  fs (final (get_config h dir s)) = fs s /\
  forall f d,
    fs s !! get_config_path dir = Some f -> fcontent f = Json d ->
    exists cfg1 s1 cfg2 s2,
      get_config h dir s = Done cfg1 s1 /\
      get_config h dir s1 = Done cfg2 s2 /\
      fs s1 = fs s /\ fs s2 = fs s /\
      ((forall K, K ∈ secret_keys ->
                  is_Some (environ h !! K) \/ mem K d = true) ->
       cfg1 = cfg2) /\
      (forall K off size,
         secret_segment K = Some (off, size) ->
         environ h !! K = None -> get K d = None ->
         let drawn1 := map (entropy h) (seq (drawn s + off) size) in
         let drawn2 := map (entropy h) (seq (drawn s + 208 + off) size) in
         get K cfg1 = Some (hex drawn1) /\
         get K cfg2 = Some (hex drawn2) /\
         (get K cfg1 = get K cfg2 <-> drawn1 = drawn2)).
Proof.
  split; [apply get_config_keeps_fs|].
  intros f d Hf Hd.
  exists (merged_config h (drawn s) d), (set_drawn (drawn s + 208) s),
    (merged_config h (drawn s + 208) d),
    (set_drawn (drawn s + 208 + 208) (set_drawn (drawn s + 208) s)).
  split; [exact (get_config_run h dir s f d Hf Hd)|].
  split; [exact (get_config_run h dir (set_drawn (drawn s + 208) s) f d Hf Hd)|].
  split; [reflexivity|]. split; [reflexivity|]. split.
  - intros Hcov.
    exact (merged_config_entropy_irrelevant h (drawn s) (drawn s + 208) d Hcov).
  - intros K off size Hseg Henv HKd drawn1 drawn2.
    rewrite (get_merged_uncovered h (drawn s) d K off size Hseg Henv HKd).
    rewrite (get_merged_uncovered h (drawn s + 208) d K off size Hseg Henv HKd).
    fold drawn1 drawn2. split; [reflexivity|]. split; [reflexivity|].
    split; [|now intros ->].
    intros [= Heq]. apply (f_equal unhex) in Heq.
    rewrite !unhex_hex in Heq. now injection Heq.
Qed.

Lemma get_config_idempotent_witness :
  let h := Fixture.container ∅ 0 0 in
  (let d := Fixture.secrets_on_disk in
   let s := Fixture.restart d in
   fs s !! get_config_path APPS_CONFIG_DIR
     = Some (File (Json d) (1000%N, 1000%N) 448) /\
   (forall K, K ∈ secret_keys -> is_Some (environ h !! K) \/ mem K d = true) /\
   exists cfg s1 s2,
     get_config h APPS_CONFIG_DIR s = Done cfg s1 /\
     get_config h APPS_CONFIG_DIR s1 = Done cfg s2 /\
     fs s1 = fs s /\ fs s2 = fs s) /\
  (let d := [("LOG_LEVEL", "debug")] in
   let s := Fixture.restart d in
   secret_segment "AI_BASIC_AUTH_PASSWORD" = Some (40, 8) /\
   environ h !! "AI_BASIC_AUTH_PASSWORD" = None /\
   get "AI_BASIC_AUTH_PASSWORD" d = None /\
   exists cfg1 s1 cfg2 s2,
     get_config h APPS_CONFIG_DIR s = Done cfg1 s1 /\
     get_config h APPS_CONFIG_DIR s1 = Done cfg2 s2 /\
     get "AI_BASIC_AUTH_PASSWORD" cfg1 = Some "28292a2b2c2d2e2f" /\
     get "AI_BASIC_AUTH_PASSWORD" cfg2 = Some "f8f9fafbfcfdfeff").
Proof.
  intros h. split.
  - intros d s.
    assert (Hcov : forall K, K ∈ secret_keys ->
                             is_Some (environ h !! K) \/ mem K d = true).
    { intros K HK. right. apply list_elem_of_In in HK. cbn in HK.
      repeat (destruct HK as [<-|HK]; [reflexivity|]). contradiction. }
    split; [reflexivity|]. split; [exact Hcov|].
    destruct (proj2 (get_config_idempotent h APPS_CONFIG_DIR s) _ d
                eq_refl eq_refl)
      as (cfg1 & s1 & cfg2 & s2 & H1 & H2 & Hfs1 & Hfs2 & Hsame & _).
    pose proof (Hsame Hcov) as <-.
    exists cfg1, s1, s2. split; [exact H1|]. split; [exact H2|].
    split; assumption.
  - intros d s. split; [reflexivity|]. split; [reflexivity|].
    split; [reflexivity|].
    destruct (proj2 (get_config_idempotent h APPS_CONFIG_DIR s) _ d
                eq_refl eq_refl)
      as (cfg1 & s1 & cfg2 & s2 & H1 & H2 & _ & _ & _ & Hfresh).
    destruct (Hfresh "AI_BASIC_AUTH_PASSWORD" 40 8 eq_refl eq_refl eq_refl)
      as (Hv1 & Hv2 & _).
    exists cfg1, s1, cfg2, s2. split; [exact H1|]. split; [exact H2|].
    split; [exact Hv1 | exact Hv2].
Defined.

(** ** Runs that only add events and files *)

Lemma bind_Done {A B} (m : M A) (f : A -> M B) s b s' :
  bind m f s = Done b s' ->
  exists a s1, m s = Done a s1 /\ f a s1 = Done b s'.
Proof.
  unfold bind. destruct (m s) as [a s1|e s1|s1]; [eauto | discriminate..].
Qed.

Section Steady.

Variable P : event -> Prop.

Lemma grows_refl s : grows P s s.
Proof.
  split; [|auto]. exists []. split; [now rewrite app_nil_r | constructor].
Qed.

Lemma grows_trans s1 s2 s3 : grows P s1 s2 -> grows P s2 s3 -> grows P s1 s3.
Proof.
  intros [(e1 & H1 & F1) K1] [(e2 & H2 & F2) K2]. split; [|auto].
  exists (e1 ++ e2). split; [now rewrite H2, H1, app_assoc|].
  apply Forall_app. auto.
Qed.

Lemma grows_emit e s : P e -> grows P s (emit e s).
Proof.
  intros He. split; [|auto]. exists [e]. split; [reflexivity|].
  now apply Forall_singleton.
Qed.

Lemma grows_set_drawn n s : grows P s (set_drawn n s).
Proof. split; [|auto]. exists []. split; [now rewrite app_nil_r | constructor]. Qed.

Lemma grows_set_attempts n s : grows P s (set_attempts n s).
Proof. split; [|auto]. exists []. split; [now rewrite app_nil_r | constructor]. Qed.

Lemma grows_insert path f s : grows P s (set_fs (<[path := f]> (fs s)) s).
Proof.
  split; [exists []; split; [now rewrite app_nil_r | constructor]|].
  intros p Hp. cbn [set_fs fs]. apply lookup_insert_is_Some.
  destruct (decide (path = p)); auto.
Qed.

Lemma grows_imap (g : string -> file -> file) s :
  grows P s (set_fs (map_imap (fun p f => Some (g p f)) (fs s)) s).
Proof.
  split; [exists []; split; [now rewrite app_nil_r | constructor]|].
  intros p [f Hf]. cbn [set_fs fs]. rewrite map_lookup_imap, Hf. cbn. eauto.
Qed.

Lemma steady_ret {A} (a : A) : steady P (ret a).
Proof. intros s. apply grows_refl. Qed.

Lemma steady_raise {A} e : steady P (@raise A e).
Proof. intros s. apply grows_refl. Qed.

Lemma steady_bind {A B} (m : M A) (f : A -> M B) :
  steady P m -> (forall a, steady P (f a)) -> steady P (bind m f).
Proof.
  intros Hm Hf s. specialize (Hm s). unfold bind.
  destruct (m s) as [a s1|e s1|s1]; cbn [final] in *; [|exact Hm..].
  eapply grows_trans; [exact Hm | apply Hf].
Qed.


Lemma steady_getitem d k : steady P (getitem d k).
Proof.
  unfold getitem. destruct (get k d); [apply steady_ret | apply steady_raise].
Qed.

Lemma steady_path_exists path : steady P (path_exists path).
Proof. intros s. apply grows_refl. Qed.

Lemma steady_json_load path : steady P (json_load path).
Proof.
  intros s. unfold json_load.
  destruct (fs s !! path) as [f|]; [destruct (fcontent f)|]; apply grows_refl.
Qed.

Lemma steady_json_dump path d : P (WriteJson path d) -> steady P (json_dump path d).
Proof.
  intros He s. unfold json_dump. cbn [final].
  eapply grows_trans; [apply grows_insert | now apply grows_emit].
Qed.

Lemma steady_chown path uid gid : P (Chown path uid gid) -> steady P (chown path uid gid).
Proof.
  intros He s. unfold chown.
  destruct (fs s !! path); cbn [final]; [|apply grows_refl].
  eapply grows_trans; [apply grows_insert | now apply grows_emit].
Qed.

Lemma steady_chmod path mode : P (Chmod path mode) -> steady P (chmod path mode).
Proof.
  intros He s. unfold chmod.
  destruct (fs s !! path); cbn [final]; [|apply grows_refl].
  eapply grows_trans; [apply grows_insert | now apply grows_emit].
Qed.


Lemma steady_sleep ms : P (Sleep ms) -> steady P (sleep ms).
Proof. intros He s. now apply grows_emit. Qed.

Lemma steady_commit : P Commit -> steady P commit.
Proof. intros He s. now apply grows_emit. Qed.

End Steady.

Section SteadyScript.

Variable h : host.
Variable P : event -> Prop.

Lemma steady_urandom size : steady P (urandom h size).
Proof. intros s. apply grows_set_drawn. Qed.

Lemma steady_get_random_secret size : steady P (get_random_secret h size).
Proof.
  apply steady_bind; [apply steady_urandom | intros; apply steady_ret].
Qed.

Lemma steady_generate_default_config : steady P (generate_default_config h).
Proof.
  unfold generate_default_config.
  repeat (apply steady_bind; [apply steady_get_random_secret | intros ?]).
  apply steady_ret.
Qed.

Lemma steady_get_config dir : steady P (get_config h dir).
Proof.
  unfold get_config.
  apply steady_bind; [apply steady_json_load | intros cfg].
  apply steady_bind; [apply steady_generate_default_config | intros defaults].
  apply steady_ret.
Qed.

Lemma steady_getpwnam name : steady P (getpwnam h name).
Proof.
  unfold getpwnam. destruct (passwd h !! name); [apply steady_ret | apply steady_raise].
Qed.

Lemma steady_getgrnam name : steady P (getgrnam h name).
Proof.
  unfold getgrnam. destruct (group h !! name); [apply steady_ret | apply steady_raise].
Qed.

Lemma steady_connect user password host port :
  (forall ok, P (Connect user password host port ok)) ->
  steady P (connect h user password host port).
Proof.
  intros He s. unfold connect. cbn [final].
  eapply grows_trans; [apply grows_set_attempts | apply grows_emit, He].
Qed.

Lemma steady_execute sql : P (Execute sql) -> steady P (execute h sql).
Proof.
  intros He s. unfold execute.
  destruct (pg_executes h sql); now apply grows_emit.
Qed.

Lemma steady_subprocess_run argv env cwd :
  (forall rc, P (Spawn argv env cwd rc)) -> steady P (subprocess_run h argv env cwd).
Proof. intros He s. apply grows_emit, He. Qed.

Lemma steady_chown_R user grp dir :
  (forall cmd, P (System cmd)) -> steady P (chown_R h user grp dir).
Proof.
  intros He s. unfold chown_R.
  destruct (passwd h !! user) as [uid|], (group h !! grp) as [gid|];
    cbn [final]; try (apply grows_emit, He).
  eapply grows_trans; [apply grows_emit, He|].
  exact (grows_imap P (fun p f =>
           if under dir p then File (fcontent f) (uid, gid) (fmode f) else f)
          (emit _ s)).
Qed.

Lemma steady_chmod_R digits mode dir :
  (forall cmd, P (System cmd)) -> steady P (chmod_R digits mode dir).
Proof.
  intros He s. unfold chmod_R. cbn [final].
  eapply grows_trans; [apply grows_emit, He|].
  exact (grows_imap P (fun p f =>
           if under dir p then File (fcontent f) (fowner f) mode else f)
          (emit _ s)).
Qed.

End SteadyScript.

(** ** The provisioning steps emit provisioning events only *)

Section Provisioning.

Variable h : host.

Lemma steady_setup_apps_wait fuel : steady provisioning (setup_apps_wait h fuel).
Proof.
  induction fuel as [|fuel IH]; [intros s; apply grows_refl|].
  cbn [setup_apps_wait].
  apply steady_bind; [now apply steady_connect|].
  intros [|]; [apply steady_ret|].
  apply steady_bind; [now apply steady_sleep | intros _; exact IH].
Qed.

Lemma steady_setup_apps_rotate cfg : steady provisioning (setup_apps_rotate h cfg).
Proof.
  unfold setup_apps_rotate.
  apply steady_bind; [now apply steady_connect|].
  intros [|]; [|apply steady_raise].
  apply steady_bind; [apply steady_getitem | intros p].
  apply steady_bind; [now apply steady_execute | intros _].
  now apply steady_commit.
Qed.

Lemma steady_run_migrations cfg : steady provisioning (run_migrations h cfg).
Proof.
  unfold run_migrations.
  do 5 (apply steady_bind; [apply steady_getitem | intros ?]).
  apply steady_bind; [now apply steady_subprocess_run | intros rc].
  destruct (rc =? 0)%Z; [apply steady_ret | apply steady_raise].
Qed.

Lemma steady_generate_apps_config : steady provisioning (generate_apps_config h).
Proof.
  unfold generate_apps_config.
  apply steady_bind; [apply steady_generate_default_config | intros cfg].
  apply steady_bind; [now apply steady_json_dump | intros _].
  apply steady_bind; [apply steady_getpwnam | intros uid].
  apply steady_bind; [apply steady_getgrnam | intros gid].
  apply steady_bind; [now apply steady_chown | intros _].
  apply steady_bind; [now apply steady_chmod | intros _].
  apply steady_ret.
Qed.

Lemma steady_setup_apps fuel : steady provisioning (setup_apps h fuel).
Proof.
  unfold setup_apps.
  apply steady_bind; [apply steady_path_exists | intros present].
  apply steady_bind.
  { destruct (negb present);
      [apply steady_generate_apps_config | apply steady_get_config]. }
  intros cfg.
  apply steady_bind; [apply steady_setup_apps_wait | intros _].
  apply steady_bind; [apply steady_setup_apps_rotate | intros _].
  apply steady_bind; [apply steady_run_migrations | intros _].
  apply steady_ret.
Qed.

Lemma steady_setup_jupyter : steady provisioning (setup_jupyter h).
Proof.
  unfold setup_jupyter, generate_jupyter_config.
  apply steady_bind; [apply steady_get_config | intros apps_cfg].
  apply steady_bind; [apply steady_getitem | intros token].
  apply steady_bind; [now apply steady_json_dump | intros _].
  apply steady_bind; [now apply steady_chown_R | intros _].
  now apply steady_chmod_R.
Qed.

End Provisioning.

(** ** The readiness wait *)

Lemma setup_apps_wait_refused h n fuel s :
  (forall i, i < n -> pg_accepts h (attempts s + i) = false) ->
  fuel <= n ->
  setup_apps_wait h fuel s =
    Waiting (State (fs s) (drawn s) (attempts s + fuel)
               (trace s ++ refused fuel)).
Proof.
  revert n s. induction fuel as [|fuel IH]; intros n s Hfail Hle.
  - cbn [setup_apps_wait refused]. rewrite Nat.add_0_r, app_nil_r.
    now destruct s.
  - destruct n as [|n]; [lia|].
    cbn [setup_apps_wait]. unfold bind at 1. unfold connect.
    assert (H0 : pg_accepts h (attempts s) = false).
    { rewrite <- (Nat.add_0_r (attempts s)). apply Hfail. lia. }
    rewrite H0. unfold bind, sleep, modify.
    rewrite (IH n); cbn [emit set_attempts fs drawn attempts trace].
    + f_equal. f_equal; [lia|].
      now rewrite <- !app_assoc.
    + intros i Hi. replace (S (attempts s) + i) with (attempts s + S i) by lia.
      apply Hfail. lia.
    + lia.
Qed.

Lemma setup_apps_wait_accepted h n fuel s :
  (forall i, i < n -> pg_accepts h (attempts s + i) = false) ->
  pg_accepts h (attempts s + n) = true ->
  n < fuel ->
  setup_apps_wait h fuel s =
    Done tt (State (fs s) (drawn s) (attempts s + n + 1)
               (trace s ++ refused n ++ [attempt true])).
Proof.
  revert fuel s. induction n as [|n IH]; intros fuel s Hfail Hok Hlt;
    (destruct fuel as [|fuel]; [lia|]);
    cbn [setup_apps_wait]; unfold bind at 1; unfold connect.
  - rewrite Nat.add_0_r in Hok. rewrite Hok. unfold ret. unfold_state.
    cbn [refused app]. f_equal. f_equal. lia.
  - assert (H0 : pg_accepts h (attempts s) = false).
    { rewrite <- (Nat.add_0_r (attempts s)). apply Hfail. lia. }
    rewrite H0. unfold bind, sleep, modify.
    rewrite IH; cbn [emit set_attempts fs drawn attempts trace].
    + f_equal. f_equal; [lia|].
      cbn [refused]. now rewrite <- !app_assoc.
    + intros i Hi. replace (S (attempts s) + i) with (attempts s + S i) by lia.
      apply Hfail. lia.
    + replace (S (attempts s) + n) with (attempts s + S n) by lia. exact Hok.
    + lia.
Qed.

Lemma count_refused n :
  length (List.filter is_connect (refused n)) = n /\
  List.filter is_sleep (refused n) = replicate n (Sleep 300).
Proof.
  induction n as [|n [IH1 IH2]]; [split; reflexivity|].
  cbn [refused List.filter is_connect is_sleep attempt length replicate].
  split; [now rewrite IH1 | now rewrite IH2].
Qed.

(** C5. If the first N attempts are refused and attempt N+1 is accepted,
    the loop returns after exactly N+1 attempts, having slept 300 ms after
    each refused attempt and at no other time; while attempts keep being
    refused the loop does not return, whatever number of iterations it is
    given. *)
Theorem readiness_wait h s :
  (forall n fuel,
      (forall i, i < n -> pg_accepts h (attempts s + i) = false) ->
      pg_accepts h (attempts s + n) = true ->
      n < fuel ->
      exists s',
        setup_apps_wait h fuel s = Done tt s' /\
        attempts s' = attempts s + (n + 1) /\
        trace s' = trace s ++ refused n ++ [attempt true] /\
        length (List.filter is_connect (refused n ++ [attempt true]))
          = n + 1 /\
        List.filter is_sleep (refused n ++ [attempt true])
          = replicate n (Sleep 300) /\
        fs s' = fs s) /\
  ((forall i, pg_accepts h (attempts s + i) = false) ->
   forall fuel,
     exists s',
       setup_apps_wait h fuel s = Waiting s' /\
       attempts s' = attempts s + fuel /\
       trace s' = trace s ++ refused fuel).
Proof.
  split.
  - intros n fuel Hfail Hok Hlt. eexists.
    split; [exact (setup_apps_wait_accepted h n fuel s Hfail Hok Hlt)|].
    cbn [attempts trace fs]. split; [lia|]. split; [reflexivity|].
    destruct (count_refused n) as [Hc Hs].
    rewrite !List.filter_app, length_app, Hc, Hs. cbn.
    split; [reflexivity|]. split; [apply app_nil_r | reflexivity].
  - intros Hfail fuel. eexists.
    split; [apply (setup_apps_wait_refused h fuel fuel s); [auto | lia]|].
    split; reflexivity.
Qed.

Lemma readiness_wait_witness :
  let s := Fixture.first_start in
  setup_apps_wait (Fixture.container ∅ 2 0) 10 s =
    Done tt (State ∅ 0 3
               [attempt false; Sleep 300; attempt false; Sleep 300; attempt true])
  /\ (forall fuel, exists s',
        setup_apps_wait Fixture.unreachable fuel s = Waiting s').
Proof.
  intros s. split.
  - destruct (proj1 (readiness_wait (Fixture.container ∅ 2 0) s) 2 10)
      as (s' & Hrun & _);
      [intros [|[|i]] Hi; [reflexivity | reflexivity | lia]
      | reflexivity | lia |].
    rewrite Hrun. vm_compute in Hrun. now inversion Hrun.
  - intros fuel.
    destruct (proj2 (readiness_wait Fixture.unreachable s)
                (fun _ => eq_refl) fuel) as (s' & Hrun & _).
    exists s'. exact Hrun.
Defined.

(** ** The connections *)

(** C3 as stated fails: with host and password overridden in the merged
    configuration, both connections still go to localhost with the
    install-time password. *)
Lemma connection_ignores_merged_config :
  let h := Fixture.container
             {[ "POSTGRES_HOSTNAME" := "db"; "POSTGRES_PASSWORD" := "hunter2" ]}
             0 0 in
  exists cfg s',
    setup_apps h 1 Fixture.first_start = Done cfg s' /\
    get "POSTGRES_HOSTNAME" cfg = Some "db" /\
    get "POSTGRES_PASSWORD" cfg = Some "hunter2" /\
    List.filter is_connect (trace s') =
      [ Connect "briefer" "briefer" "localhost" "5432" true;
        Connect "briefer" "briefer" "localhost" "5432" true ].
Proof.
  intros h. eexists _, _.
  split; [vm_compute; reflexivity|].
  repeat split; reflexivity.
Qed.

(** C3, amended. Every connection [setup_apps] opens, in the readiness
    wait and in the credential rotation alike, uses the literal user
    briefer, password briefer, host localhost and port 5432, whatever the
    merged configuration holds. *)
Theorem connections_use_install_defaults h fuel s :
  exists evs,
    trace (final (setup_apps h fuel s)) = (trace s ++ evs)%list /\
    forall user password host port ok,
      Connect user password host port ok ∈ evs ->
      user = "briefer" /\ password = "briefer" /\
      host = "localhost" /\ port = "5432".
Proof.
  destruct (steady_setup_apps h fuel s) as [(evs & Htr & Hall) _].
  exists evs. split; [exact Htr|].
  intros user password host port ok Hin.
  rewrite Forall_forall in Hall. specialize (Hall _ Hin).
  unfold provisioning, provisioning_event in Hall.
  apply andb_prop in Hall as [Hall Hport].
  apply andb_prop in Hall as [Hall Hhost].
  apply andb_prop in Hall as [Huser Hpw].
  now rewrite String.eqb_eq in *.
Qed.


(** ** The migration runner *)

Lemma run_migrations_run h cfg s username password hostname port database :
  get "POSTGRES_USERNAME" cfg = Some username ->
  get "POSTGRES_PASSWORD" cfg = Some password ->
  get "POSTGRES_HOSTNAME" cfg = Some hostname ->
  get "POSTGRES_PORT" cfg = Some port ->
  get "POSTGRES_DATABASE" cfg = Some database ->
  let env := run_migrations_env h
               [ ("NODE_ENV", "production");
                 ("POSTGRES_PRISMA_URL",
                  prisma_url username password hostname port database) ] in
  let s' := emit (Spawn prisma_argv env "/app/api/" (npx h env)) s in
  run_migrations h cfg s =
    if (npx h env =? 0)%Z then Done tt s'
    else Raised (CalledProcessError (npx h env)) s'.
Proof.
  intros Hu Hp Hh Hpo Hd env s'. unfold run_migrations, getitem.
  rewrite Hu, Hp, Hh, Hpo, Hd. unfold bind at 1 2 3 4 5. unfold ret at 1 2 3 4 5.
  unfold bind, subprocess_run. fold prisma_argv.
  fold (prisma_url username password hostname port database). fold env. fold s'.
  now destruct (npx h env =? 0)%Z.
Qed.

(** C7. The child environment is the process environment with NODE_ENV
    and POSTGRES_PRISMA_URL added only where they were not set: every
    variable that was set reaches the child unchanged, the URL is built
    from the POSTGRES_* fields of the configuration, and nothing else is
    added. *)
Theorem migration_environment h cfg s username password hostname port database :
  get "POSTGRES_USERNAME" cfg = Some username ->
  get "POSTGRES_PASSWORD" cfg = Some password ->
  get "POSTGRES_HOSTNAME" cfg = Some hostname ->
  get "POSTGRES_PORT" cfg = Some port ->
  get "POSTGRES_DATABASE" cfg = Some database ->
  exists env,
    trace (final (run_migrations h cfg s))
      = (trace s ++ [Spawn prisma_argv env "/app/api/" (npx h env)])%list /\
    (forall k v, environ h !! k = Some v -> env !! k = Some v) /\
    env !! "NODE_ENV"
      = Some (default "production" (environ h !! "NODE_ENV")) /\
    env !! "POSTGRES_PRISMA_URL"
      = Some (default
                ("postgresql://" +:+ username +:+ ":" +:+ password +:+ "@"
                   +:+ hostname +:+ ":" +:+ port +:+ "/" +:+ database
                   +:+ "?schema=public")
                (environ h !! "POSTGRES_PRISMA_URL")) /\
    (forall k, k <> "NODE_ENV" -> k <> "POSTGRES_PRISMA_URL" ->
               env !! k = environ h !! k).
Proof.
  intros Hu Hp Hh Hpo Hd.
  pose proof (run_migrations_run h cfg s _ _ _ _ _ Hu Hp Hh Hpo Hd) as Hrun.
  cbv zeta in Hrun. fold (prisma_url username password hostname port database).
  set (url := prisma_url username password hostname port database) in *.
  set (env := run_migrations_env h _) in *.
  exists env. split.
  { rewrite Hrun. now destruct (npx h env =? 0)%Z. }
  subst env.
  unfold run_migrations_env, run_migrations_step. cbn [fold_left].
  assert (Hne : "NODE_ENV" <> "POSTGRES_PRISMA_URL") by discriminate.
  destruct (environ h !! "NODE_ENV") as [node|] eqn:Hnode.
  - destruct (environ h !! "POSTGRES_PRISMA_URL") as [u|] eqn:Hurl;
      cbn [default].
    + repeat split; auto.
    + repeat split.
      * intros k v Hk. rewrite lookup_insert_ne; [exact Hk | congruence].
      * now rewrite lookup_insert_ne.
      * apply lookup_insert_eq.
      * intros k _ Hk. now apply lookup_insert_ne.
  - rewrite (lookup_insert_ne _ _ _ _ Hne).
    destruct (environ h !! "POSTGRES_PRISMA_URL") as [u|] eqn:Hurl;
      cbn [default].
    + repeat split.
      * intros k v Hk. rewrite lookup_insert_ne; [exact Hk | congruence].
      * apply lookup_insert_eq.
      * now rewrite lookup_insert_ne.
      * intros k Hk _. now apply lookup_insert_ne.
    + repeat split.
      * intros k v Hk. rewrite !lookup_insert_ne; [exact Hk | congruence..].
      * now rewrite lookup_insert_ne, lookup_insert_eq.
      * apply lookup_insert_eq.
      * intros k Hk1 Hk2. now rewrite !lookup_insert_ne.
Qed.

Lemma migration_environment_witness :
  let h := Fixture.container {[ "POSTGRES_PRISMA_URL" := "postgresql://preset" ]} 0 0 in
  let cfg := [ ("POSTGRES_USERNAME", "briefer"); ("POSTGRES_PASSWORD", "s3cret");
               ("POSTGRES_HOSTNAME", "localhost"); ("POSTGRES_PORT", "5432");
               ("POSTGRES_DATABASE", "briefer") ] in
  (get "POSTGRES_USERNAME" cfg = Some "briefer" /\
   get "POSTGRES_PASSWORD" cfg = Some "s3cret" /\
   get "POSTGRES_HOSTNAME" cfg = Some "localhost" /\
   get "POSTGRES_PORT" cfg = Some "5432" /\
   get "POSTGRES_DATABASE" cfg = Some "briefer") /\
  exists env,
    trace (final (run_migrations h cfg Fixture.first_start))
      = [Spawn prisma_argv env "/app/api/" (npx h env)] /\
    env !! "NODE_ENV" = Some "production" /\
    env !! "POSTGRES_PRISMA_URL" = Some "postgresql://preset".
Proof.
  intros h cfg. split; [repeat split; reflexivity|].
  destruct (migration_environment h cfg Fixture.first_start
              "briefer" "s3cret" "localhost" "5432" "briefer"
              eq_refl eq_refl eq_refl eq_refl eq_refl)
    as (env & Htr & _ & Hnode & Hurl & _).
  exists env. split; [exact Htr|]. split; [exact Hnode | exact Hurl].
Defined.

(** ** Exact runs of the steps of [setup_apps] *)

Lemma setup_apps_wait_Done h fuel s u s' :
  setup_apps_wait h fuel s = Done u s' ->
  exists n,
    n < fuel /\
    (forall i, i < n -> pg_accepts h (attempts s + i) = false) /\
    pg_accepts h (attempts s + n) = true /\
    s' = State (fs s) (drawn s) (attempts s + n + 1)
           (trace s ++ refused n ++ [attempt true]).
Proof.
  revert s. induction fuel as [|fuel IH]; intros s Hrun; [discriminate|].
  cbn [setup_apps_wait] in Hrun. unfold bind at 1 in Hrun. unfold connect in Hrun.
  destruct (pg_accepts h (attempts s)) eqn:Hacc.
  - exists 0. split; [lia|]. split; [intros i Hi; lia|].
    rewrite Nat.add_0_r. split; [exact Hacc|].
    unfold ret in Hrun. injection Hrun as _ <-. unfold_state.
    cbn [refused app]. f_equal. lia.
  - unfold bind, sleep, modify in Hrun.
    destruct (IH _ Hrun) as (n & Hlt & Hfail & Hok & ->).
    revert Hfail Hok. unfold_state. intros Hfail Hok.
    exists (S n). split; [lia|]. split.
    + intros [|i] Hi; [now rewrite Nat.add_0_r|].
      replace (attempts s + S i) with (S (attempts s) + i) by lia.
      apply Hfail. lia.
    + replace (attempts s + S n) with (S (attempts s) + n) by lia.
      split; [exact Hok|]. cbn [refused]. f_equal; try lia.
      unfold attempt. now rewrite <- !app_assoc.
Qed.

Lemma setup_apps_rotate_run h cfg s :
  setup_apps_rotate h cfg s =
    let s1 := State (fs s) (drawn s) (S (attempts s)) in
    if pg_accepts h (attempts s) then
      match get "POSTGRES_PASSWORD" cfg with
      | Some p =>
          let sql := "ALTER USER briefer WITH PASSWORD '" +:+ p +:+ "'" in
          if pg_executes h sql
          then Done tt (s1 (trace s ++ [attempt true; Execute sql; Commit]))
          else Raised (DatabaseError sql) (s1 (trace s ++ [attempt true; Execute sql]))
      | None =>
          Raised (KeyError "POSTGRES_PASSWORD") (s1 (trace s ++ [attempt true]))
      end
    else Raised OperationalError (s1 (trace s ++ [attempt false])).
Proof.
  unfold setup_apps_rotate, bind at 1, connect. cbv zeta.
  destruct (pg_accepts h (attempts s)); [|reflexivity].
  unfold getitem. destruct (get "POSTGRES_PASSWORD" cfg) as [p|]; [|reflexivity].
  unfold bind, ret, execute, commit, modify.
  destruct (pg_executes h _); unfold_state; [|now rewrite <- app_assoc].
  now rewrite <- !app_assoc.
Qed.

Lemma setup_apps_rotate_Done h cfg s u s' :
  setup_apps_rotate h cfg s = Done u s' ->
  exists p,
    get "POSTGRES_PASSWORD" cfg = Some p /\
    s' = State (fs s) (drawn s) (S (attempts s))
           (trace s ++ [ attempt true;
                         Execute ("ALTER USER briefer WITH PASSWORD '" +:+ p +:+ "'");
                         Commit ]).
Proof.
  rewrite setup_apps_rotate_run. cbv zeta.
  destruct (pg_accepts h (attempts s)); [|discriminate].
  destruct (get "POSTGRES_PASSWORD" cfg) as [p|]; [|discriminate].
  destruct (pg_executes h _); [|discriminate].
  intros [= _ <-]. eauto.
Qed.

Lemma run_migrations_Done h cfg s u s' :
  run_migrations h cfg s = Done u s' ->
  exists username password hostname port database,
    get "POSTGRES_USERNAME" cfg = Some username /\
    get "POSTGRES_PASSWORD" cfg = Some password /\
    get "POSTGRES_HOSTNAME" cfg = Some hostname /\
    get "POSTGRES_PORT" cfg = Some port /\
    get "POSTGRES_DATABASE" cfg = Some database /\
    let env := run_migrations_env h
                 [ ("NODE_ENV", "production");
                   ("POSTGRES_PRISMA_URL",
                    prisma_url username password hostname port database) ] in
    npx h env = 0%Z /\
    s' = emit (Spawn prisma_argv env "/app/api/" 0) s.
Proof.
  intros Hrun.
  destruct (get "POSTGRES_USERNAME" cfg) as [username|] eqn:Hu;
    [|unfold run_migrations, getitem in Hrun; rewrite Hu in Hrun; discriminate].
  destruct (get "POSTGRES_PASSWORD" cfg) as [password|] eqn:Hp;
    [|unfold run_migrations, getitem in Hrun; rewrite Hu, Hp in Hrun; discriminate].
  destruct (get "POSTGRES_HOSTNAME" cfg) as [hostname|] eqn:Hh;
    [|unfold run_migrations, getitem in Hrun; rewrite Hu, Hp, Hh in Hrun; discriminate].
  destruct (get "POSTGRES_PORT" cfg) as [port|] eqn:Hpo;
    [|unfold run_migrations, getitem in Hrun; rewrite Hu, Hp, Hh, Hpo in Hrun;
      discriminate].
  destruct (get "POSTGRES_DATABASE" cfg) as [database|] eqn:Hd;
    [|unfold run_migrations, getitem in Hrun; rewrite Hu, Hp, Hh, Hpo, Hd in Hrun;
      discriminate].
  rewrite (run_migrations_run h cfg s _ _ _ _ _ Hu Hp Hh Hpo Hd) in Hrun.
  cbv zeta in Hrun. exists username, password, hostname, port, database.
  repeat (split; [reflexivity|]). cbv zeta.
  destruct (npx h _ =? 0)%Z eqn:Hrc; [|discriminate].
  apply Z.eqb_eq in Hrc. split; [exact Hrc|].
  injection Hrun as _ <-. now rewrite Hrc.
Qed.

Lemma get_config_Done h dir s cfg s' :
  get_config h dir s = Done cfg s' ->
  exists f d,
    fs s !! get_config_path dir = Some f /\ fcontent f = Json d /\
    cfg = merged_config h (drawn s) d /\
    s' = set_drawn (drawn s + 208) s.
Proof.
  intros Hrun.
  destruct (fs s !! get_config_path dir) as [f|] eqn:Hf;
    [|unfold get_config, bind, json_load in Hrun; rewrite Hf in Hrun; discriminate].
  destruct (fcontent f) as [|d|] eqn:Hd;
    try (unfold get_config, bind, json_load in Hrun; rewrite Hf, Hd in Hrun;
         discriminate).
  rewrite (get_config_run h dir s f d Hf Hd) in Hrun.
  injection Hrun as <- <-. eauto 6.
Qed.

Lemma generate_apps_config_Done h s cfg s' :
  generate_apps_config h s = Done cfg s' ->
  exists uid gid,
    passwd h !! "briefer" = Some uid /\ group h !! "briefer" = Some gid /\
    cfg = apps_config h (drawn s) /\
    s' = State
           (<[get_config_path APPS_CONFIG_DIR := File (Json cfg) (uid, gid) 448]>
              (fs s))
           (drawn s + 208) (attempts s)
           (trace s ++
              [ WriteJson (get_config_path APPS_CONFIG_DIR) cfg;
                Chown (get_config_path APPS_CONFIG_DIR) uid gid;
                Chmod (get_config_path APPS_CONFIG_DIR) 448 ]).
Proof.
  intros Hrun.
  destruct (passwd h !! "briefer") as [uid|] eqn:Hu.
  - destruct (group h !! "briefer") as [gid|] eqn:Hg.
    + rewrite (generate_apps_config_run h s uid gid Hu Hg) in Hrun.
      injection Hrun as <- <-. eauto 6.
    + unfold generate_apps_config, bind in Hrun.
      rewrite generate_default_config_run in Hrun.
      unfold json_dump, getpwnam, getgrnam in Hrun. rewrite Hu, Hg in Hrun.
      discriminate.
  - unfold generate_apps_config, bind in Hrun.
    rewrite generate_default_config_run in Hrun.
    unfold json_dump, getpwnam in Hrun. rewrite Hu in Hrun. discriminate.
Qed.

(** A returning [setup_apps]: which configuration it used, and the state
    it leaves. *)
Lemma setup_apps_Done h fuel s cfg s' :
  setup_apps h fuel s = Done cfg s' ->
  exists s1 n p env,
    ((fs s !! get_config_path APPS_CONFIG_DIR = None /\
      generate_apps_config h s = Done cfg s1) \/
     (is_Some (fs s !! get_config_path APPS_CONFIG_DIR) /\
      get_config h APPS_CONFIG_DIR s = Done cfg s1)) /\
    (forall i, i < n -> pg_accepts h (attempts s1 + i) = false) /\
    get "POSTGRES_PASSWORD" cfg = Some p /\
    s' = State (fs s1) (drawn s1) (attempts s1 + n + 2)
           (trace s1 ++ refused n ++
              [ attempt true; attempt true;
                Execute ("ALTER USER briefer WITH PASSWORD '" +:+ p +:+ "'");
                Commit;
                Spawn prisma_argv env "/app/api/" 0 ]).
Proof.
  intros Hrun. unfold setup_apps in Hrun.
  apply bind_Done in Hrun as (present & s0 & Hex & Hrun).
  unfold path_exists in Hex. injection Hex as <- <-.
  apply bind_Done in Hrun as (cfg0 & s1 & Hcfg & Hrun).
  apply bind_Done in Hrun as (u1 & s2 & Hwait & Hrun).
  apply bind_Done in Hrun as (u2 & s3 & Hrot & Hrun).
  apply bind_Done in Hrun as (u3 & s4 & Hmig & Hrun).
  unfold ret in Hrun. injection Hrun as <- <-.
  apply setup_apps_wait_Done in Hwait as (n & _ & Hfail & _ & ->).
  apply setup_apps_rotate_Done in Hrot as (p & Hp & ->).
  apply run_migrations_Done in Hmig
    as (un & pw & hn & po & db & _ & _ & _ & _ & _ & Hmig).
  cbv zeta in Hmig. destruct Hmig as [_ ->].
  exists s1, n, p, (run_migrations_env h
    [("NODE_ENV", "production"); ("POSTGRES_PRISMA_URL", prisma_url un pw hn po db)]).
  split.
  { destruct (fs s !! get_config_path APPS_CONFIG_DIR) as [f|] eqn:Hf.
    - right. split; [eauto|].
      rewrite bool_decide_eq_true_2 in Hcfg by eauto. exact Hcfg.
    - left. split; [reflexivity|].
      rewrite bool_decide_eq_false_2 in Hcfg by (intros [? ?]; discriminate).
      exact Hcfg. }
  split; [exact Hfail|]. split; [exact Hp|].
  unfold_state. f_equal; [lia|].
  rewrite <- !app_assoc. reflexivity.
Qed.

(** ** First-run detection *)

Lemma filter_execute_refused n : List.filter is_execute (refused n) = [].
Proof. induction n as [|n IH]; [reflexivity | exact IH]. Qed.

(** C6. Which configuration path [setup_apps] takes depends on nothing but
    the presence of the primary configuration file: absent, the document
    is generated and persisted; present, it is loaded and nothing is
    written.  Either way the same wait, rotation and migration follow. *)
Theorem first_run_detection h fuel s :
  let path := get_config_path APPS_CONFIG_DIR in
  let rest := fun cfg =>
    (run setup_apps_wait h fuel;
     run setup_apps_rotate h cfg;
     run run_migrations h cfg;
     ret cfg) in
  (fs s !! path = None ->
   setup_apps h fuel s = (do cfg <- generate_apps_config h; rest cfg) s /\
   forall cfg s', setup_apps h fuel s = Done cfg s' ->
     cfg = apps_config h (drawn s) /\
     exists f, fs s' !! path = Some f /\ fcontent f = Json cfg) /\
  (is_Some (fs s !! path) ->
   setup_apps h fuel s = (do cfg <- get_config h APPS_CONFIG_DIR; rest cfg) s /\
   forall cfg s', setup_apps h fuel s = Done cfg s' ->
     fs s' = fs s /\
     exists f d, fs s !! path = Some f /\ fcontent f = Json d /\
                 cfg = merged_config h (drawn s) d) /\
  (forall cfg s', setup_apps h fuel s = Done cfg s' ->
     exists written n p env,
       trace s' = trace s ++ written ++ refused n ++
                    [ attempt true; attempt true;
                      Execute ("ALTER USER briefer WITH PASSWORD '" +:+ p +:+ "'");
                      Commit;
                      Spawn prisma_argv env "/app/api/" 0 ]).
Proof.
  intros path rest. split; [|split].
  - intros Habs. split.
    + unfold setup_apps, bind at 1, path_exists. fold path.
      rewrite bool_decide_eq_false_2 by (rewrite Habs; intros [? ?]; discriminate).
      reflexivity.
    + intros cfg s' Hrun.
      apply setup_apps_Done in Hrun as (s1 & n & p & env & Hpath & _ & _ & ->).
      fold path in Hpath. destruct Hpath as [[_ Hgen]|[[f Hf] _]]; [|congruence].
      apply generate_apps_config_Done in Hgen
        as (uid & gid & _ & _ & Hcfg & ->).
      split; [exact Hcfg|]. cbn [fs]. fold path.
      rewrite lookup_insert_eq. eauto.
  - intros Hpres. split.
    + unfold setup_apps, bind at 1, path_exists. fold path.
      rewrite bool_decide_eq_true_2 by exact Hpres. reflexivity.
    + intros cfg s' Hrun.
      apply setup_apps_Done in Hrun as (s1 & n & p & env & Hpath & _ & _ & ->).
      fold path in Hpath. destruct Hpath as [[Habs _]|[_ Hload]].
      { rewrite Habs in Hpres. destruct Hpres; discriminate. }
      apply get_config_Done in Hload as (f & d & Hf & Hd & Hcfg & ->).
      split; [reflexivity|]. eauto 6.
  - intros cfg s' Hrun.
    apply setup_apps_Done in Hrun as (s1 & n & p & env & Hpath & _ & _ & ->).
    destruct Hpath as [[_ Hgen]|[_ Hload]].
    + apply generate_apps_config_Done in Hgen as (uid & gid & _ & _ & _ & ->).
      eexists _, n, p, env. cbn [trace]. rewrite <- app_assoc. reflexivity.
    + apply get_config_Done in Hload as (f & d & _ & _ & _ & ->).
      exists [], n, p, env. reflexivity.
Qed.

Lemma first_run_detection_witness :
  let h := Fixture.container ∅ 1 0 in
  let path := get_config_path APPS_CONFIG_DIR in
  (fs Fixture.first_start !! path = None /\
   exists cfg s' f,
     setup_apps h 5 Fixture.first_start = Done cfg s' /\
     fs s' !! path = Some f /\ fcontent f = Json cfg) /\
  (is_Some (fs (Fixture.restart Fixture.secrets_on_disk) !! path) /\
   exists cfg s',
     setup_apps h 5 (Fixture.restart Fixture.secrets_on_disk) = Done cfg s' /\
     fs s' = fs (Fixture.restart Fixture.secrets_on_disk)).
Proof.
  intros h path. split.
  - split; [reflexivity|].
    assert (Hrun : exists cfg s',
               setup_apps h 5 Fixture.first_start = Done cfg s')
      by (eexists _, _; vm_compute; reflexivity).
    destruct Hrun as (cfg & s' & Hrun).
    destruct (proj1 (first_run_detection h 5 Fixture.first_start) eq_refl)
      as [_ Hgen].
    destruct (Hgen cfg s' Hrun) as (_ & f & Hf & Hc).
    exists cfg, s', f. auto.
  - assert (Hpres : is_Some (fs (Fixture.restart Fixture.secrets_on_disk) !! path))
      by (eexists; reflexivity).
    split; [exact Hpres|].
    assert (Hrun : exists cfg s',
               setup_apps h 5 (Fixture.restart Fixture.secrets_on_disk)
                 = Done cfg s')
      by (eexists _, _; vm_compute; reflexivity).
    destruct Hrun as (cfg & s' & Hrun).
    destruct (proj1 (proj2 (first_run_detection h 5
                              (Fixture.restart Fixture.secrets_on_disk))) Hpres)
      as [_ Hload].
    destruct (Hload cfg s' Hrun) as (Hfs & _).
    exists cfg, s'. auto.
Defined.

(** ** The credential rotation *)

Lemma length_snoc_quote r : String.length (r +:+ "'") = S (String.length r).
Proof.
  induction r as [|c r IH]; [reflexivity|].
  change (String c r +:+ "'") with (String c (r +:+ "'")).
  cbn [String.length]. now f_equal.
Qed.

Lemma unquote_shape n : forall s r,
  String.length s <= n ->
  unquote s = Some r ->
  (s = r +:+ "'" /\ quote_free r = true)
  \/ String.length r + 2 <= String.length s.
Proof.
  induction n as [|n IH]; intros [|c rest] r Hlen Hun; try discriminate;
    cbn [String.length] in Hlen; [lia|].
  cbn [unquote] in Hun. destruct (Ascii.eqb_spec c "'") as [->|Hc].
  - destruct rest as [|c' rest'].
    + injection Hun as <-. left. split; reflexivity.
    + destruct (Ascii.eqb c' "'"); [|discriminate].
      destruct (unquote rest') as [r0|] eqn:Hr0; [|discriminate].
      injection Hun as <-. right. cbn [String.length] in *.
      destruct (IH rest' r0 ltac:(lia) Hr0) as [[-> _]|Hlt];
        [rewrite length_snoc_quote|]; lia.
  - destruct (unquote rest) as [r0|] eqn:Hr0; [|discriminate].
    injection Hun as <-.
    destruct (IH rest r0 ltac:(lia) Hr0) as [[-> Hq]|Hlt].
    + left. split; [reflexivity|]. cbn [quote_free]. rewrite Hq.
      apply Ascii.eqb_neq in Hc. now rewrite Hc.
    + right. cbn [String.length]. lia.
Qed.

Lemma unquote_quote_free p : quote_free p = true -> unquote (p +:+ "'") = Some p.
Proof.
  induction p as [|c p IH]; [reflexivity|].
  cbn [quote_free]. intros [Hc Hq]%andb_prop.
  change (String c p +:+ "'") with (String c (p +:+ "'")). cbn [unquote].
  apply negb_true_iff in Hc. rewrite Hc, (IH Hq). reflexivity.
Qed.

Lemma unquote_verbatim p : unquote (p +:+ "'") = Some p <-> quote_free p = true.
Proof.
  split; [|apply unquote_quote_free].
  intros Hun. destruct (unquote_shape _ _ _ (Nat.le_refl _) Hun) as [[_ Hq]|Hlt];
    [exact Hq|].
  rewrite length_snoc_quote in Hlt. lia.
Qed.

Lemma password_change_statement p :
  password_change ("ALTER USER briefer WITH PASSWORD '" +:+ p +:+ "'")
    = unquote (p +:+ "'").
Proof. reflexivity. Qed.

(** C10. The statement sent during the rotation is the literal text
    [ALTER USER briefer WITH PASSWORD '] followed by the password as it is
    and a closing quote; it reads back as a password change to that
    password exactly when the password holds no single quote. *)
Theorem rotation_statement_verbatim h cfg s p :
  pg_accepts h (attempts s) = true ->
  get "POSTGRES_PASSWORD" cfg = Some p ->
  let sql := "ALTER USER briefer WITH PASSWORD '" +:+ p +:+ "'" in
  List.filter is_execute (trace (final (setup_apps_rotate h cfg s)))
    = List.filter is_execute (trace s) ++ [Execute sql] /\
  (password_change sql = Some p <-> quote_free p = true).
Proof.
  intros Hacc Hp sql. split.
  - rewrite setup_apps_rotate_run. cbv zeta. rewrite Hacc, Hp. fold sql.
    destruct (pg_executes h sql); cbn [final trace];
      rewrite List.filter_app; reflexivity.
  - unfold sql. rewrite password_change_statement. apply unquote_verbatim.
Qed.

Lemma rotation_statement_verbatim_witness :
  let h := Fixture.container ∅ 0 0 in
  let cfg := [("POSTGRES_PASSWORD", "it's")] in
  (pg_accepts h (attempts Fixture.first_start) = true /\
   get "POSTGRES_PASSWORD" cfg = Some "it's") /\
  trace (final (setup_apps_rotate h cfg Fixture.first_start))
    = [ attempt true; Execute "ALTER USER briefer WITH PASSWORD 'it's'"; Commit ] /\
  password_change "ALTER USER briefer WITH PASSWORD 'it's'" <> Some "it's".
Proof.
  intros h cfg. split; [split; reflexivity|]. split; [reflexivity|].
  destruct (rotation_statement_verbatim h cfg Fixture.first_start "it's"
              eq_refl eq_refl) as [_ Hiff].
  intros Hwell. apply Hiff in Hwell. discriminate Hwell.
Defined.

(** ** The markers *)

Ltac paths_differ :=
  let H := fresh in intros H; vm_compute in H; discriminate H.

Lemma main_create_marker_run h dir user uid gid s :
  passwd h !! user = Some uid -> group h !! user = Some gid ->
  main_create_marker h (dir, user) s =
    Done tt (State (<[Path dir "setup" := marker_file s (Path dir "setup") uid gid]> (fs s))
               (drawn s) (attempts s)
               (trace s ++ [Touch (Path dir "setup"); Chown (Path dir "setup") uid gid])).
Proof.
  intros Hu Hg. unfold main_create_marker, bind, touch, getpwnam, getgrnam.
  rewrite Hu, Hg. unfold ret, chown. unfold_state.
  rewrite lookup_insert_eq, insert_insert_eq, <- app_assoc.
  unfold marker_file. now destruct (fs s !! Path dir "setup").
Qed.

Lemma main_create_marker_Done h dir user s u s' :
  main_create_marker h (dir, user) s = Done u s' ->
  exists uid gid,
    passwd h !! user = Some uid /\ group h !! user = Some gid.
Proof.
  intros Hrun. unfold main_create_marker, bind, touch, getpwnam, getgrnam in Hrun.
  destruct (passwd h !! user) as [uid|]; [|discriminate].
  destruct (group h !! user) as [gid|]; [|discriminate]. eauto.
Qed.

Lemma create_markers_run h s ub gb uj gj :
  passwd h !! "briefer" = Some ub -> group h !! "briefer" = Some gb ->
  passwd h !! "jupyteruser" = Some uj -> group h !! "jupyteruser" = Some gj ->
  exists s0,
    for_each (main_create_marker h) setups s = Done tt s0 /\
    trace s0 = trace s ++ [ Touch apps_marker; Chown apps_marker ub gb;
                            Touch jupyter_marker; Chown jupyter_marker uj gj ] /\
    is_Some (fs s0 !! apps_marker) /\ is_Some (fs s0 !! jupyter_marker) /\
    drawn s0 = drawn s /\ attempts s0 = attempts s /\
    (forall p, p <> apps_marker -> p <> jupyter_marker -> fs s0 !! p = fs s !! p).
Proof.
  intros Hub Hgb Huj Hgj. eexists. split.
  { unfold setups. cbn [for_each]. unfold bind at 1.
    rewrite (main_create_marker_run h _ _ ub gb s Hub Hgb).
    unfold bind at 1.
    rewrite (main_create_marker_run h _ _ uj gj _ Huj Hgj).
    reflexivity. }
  cbn [trace fs drawn attempts]. fold apps_marker jupyter_marker.
  split; [now rewrite <- app_assoc|].
  split.
  { rewrite lookup_insert_ne by paths_differ. rewrite lookup_insert_eq. eauto. }
  split; [rewrite lookup_insert_eq; eauto|].
  split; [reflexivity|]. split; [reflexivity|].
  intros p H1 H2. now rewrite !lookup_insert_ne.
Qed.

Lemma remove_markers_run s :
  is_Some (fs s !! apps_marker) -> is_Some (fs s !! jupyter_marker) ->
  for_each main_remove_marker setups s =
    Done tt (State (delete jupyter_marker (delete apps_marker (fs s)))
               (drawn s) (attempts s)
               (trace s ++ [Unlink apps_marker; Unlink jupyter_marker])).
Proof.
  intros [f1 H1] [f2 H2]. unfold setups. cbn [for_each].
  unfold bind, main_remove_marker, unlink, ret.
  fold apps_marker jupyter_marker. rewrite H1. unfold_state.
  rewrite lookup_delete_ne by paths_differ. rewrite H2.
  now rewrite <- app_assoc.
Qed.

(** ** The secondary document *)

Lemma get_jupyter_token h n d :
  get "JUPYTER_TOKEN" (merged_config h n d) = Some (jupyter_token h n d).
Proof.
  unfold merged_config, jupyter_token. rewrite get_fold_get_config_step.
  rewrite mem_default_document
    by (apply list_elem_of_In; vm_compute; tauto).
  destruct (environ h !! "JUPYTER_TOKEN"); [reflexivity|].
  destruct (get "JUPYTER_TOKEN" d); reflexivity.
Qed.

Lemma lookup_imap_content (g : string -> file -> file) (m : gmap string file) p :
  (forall q f, fcontent (g q f) = fcontent f) ->
  fcontent <$> map_imap (fun q f => Some (g q f)) m !! p = fcontent <$> m !! p.
Proof.
  intros Hg. rewrite map_lookup_imap. destruct (m !! p) as [f|]; [|reflexivity].
  cbn. now rewrite Hg.
Qed.

Lemma generate_jupyter_config_run h s f d :
  fs s !! apps_config_file = Some f -> fcontent f = Json d ->
  let cfg := [("JUPYTER_TOKEN", jupyter_token h (drawn s) d)] in
  exists s',
    generate_jupyter_config h s = Done tt s' /\
    trace s' = trace s ++
      [ WriteJson jupyter_config_file cfg;
        System "chown -R jupyteruser:jupyteruser /home/jupyteruser";
        System "chmod -R 700 /home/jupyteruser" ] /\
    content_at s' jupyter_config_file = Some (Json cfg) /\
    (forall p, p <> jupyter_config_file -> content_at s' p = content_at s p) /\
    drawn s' = drawn s + 208 /\ attempts s' = attempts s.
Proof.
  intros Hf Hd cfg. unfold generate_jupyter_config, bind.
  rewrite (get_config_run h APPS_CONFIG_DIR s f d Hf Hd).
  unfold getitem. rewrite get_jupyter_token. unfold ret. fold cfg.
  fold jupyter_config_file.
  unfold json_dump, chown_R, chmod_R. cbv zeta. unfold_state.
  set (written := <[jupyter_config_file := _]> (fs s)).
  assert (Hw : fcontent <$> written !! jupyter_config_file = Some (Json cfg)).
  { unfold written. rewrite lookup_insert_eq.
    now destruct (fs s !! jupyter_config_file). }
  assert (Ho : forall p, p <> jupyter_config_file ->
                         fcontent <$> written !! p = fcontent <$> fs s !! p).
  { intros p Hp. unfold written. now rewrite lookup_insert_ne. }
  destruct (passwd h !! "jupyteruser") as [uid|],
           (group h !! "jupyteruser") as [gid|];
    eexists; (split; [reflexivity|]); unfold content_at; unfold_state;
    (split; [rewrite <- !app_assoc; reflexivity|]);
    (split; [|split; [|split; reflexivity]]);
    try intros p Hp;
    repeat (rewrite lookup_imap_content
              by (intros q g; destruct (under _ q); reflexivity));
    auto.
Qed.

(** ** Whole runs *)

Lemma remove_markers_Done s u s' :
  for_each main_remove_marker setups s = Done u s' ->
  s' = State (delete jupyter_marker (delete apps_marker (fs s)))
         (drawn s) (attempts s)
         (trace s ++ [Unlink apps_marker; Unlink jupyter_marker]).
Proof.
  intros Hrun.
  assert (H1 : is_Some (fs s !! apps_marker)).
  { unfold setups in Hrun. cbn [for_each] in Hrun.
    unfold bind, main_remove_marker, unlink in Hrun. fold apps_marker in Hrun.
    destruct (fs s !! apps_marker); [eauto | discriminate]. }
  assert (H2 : is_Some (fs s !! jupyter_marker)).
  { unfold setups in Hrun. cbn [for_each] in Hrun.
    unfold bind, main_remove_marker, unlink in Hrun.
    fold apps_marker jupyter_marker in Hrun.
    destruct (fs s !! apps_marker); [|discriminate].
    revert Hrun. unfold_state.
    rewrite lookup_delete_ne by paths_differ.
    destruct (fs s !! jupyter_marker); [eauto | discriminate]. }
  rewrite (remove_markers_run s H1 H2) in Hrun. now injection Hrun as _ <-.
Qed.

Lemma main_Done h fuel s u s' :
  main h fuel s = Done u s' ->
  exists s0 cfg s1 s2,
    for_each (main_create_marker h) setups s = Done tt s0 /\
    setup_apps h fuel s0 = Done cfg s1 /\
    setup_jupyter h s1 = Done tt s2 /\
    for_each main_remove_marker setups s2 = Done u s'.
Proof.
  intros Hrun. unfold main in Hrun.
  apply bind_Done in Hrun as ([] & s0 & H0 & Hrun).
  apply bind_Done in Hrun as (cfg & s1 & H1 & Hrun).
  apply bind_Done in Hrun as ([] & s2 & H2 & Hrun).
  eauto 8.
Qed.

Lemma create_markers_Done h s u s0 :
  for_each (main_create_marker h) setups s = Done u s0 ->
  exists ub gb uj gj,
    passwd h !! "briefer" = Some ub /\ group h !! "briefer" = Some gb /\
    passwd h !! "jupyteruser" = Some uj /\ group h !! "jupyteruser" = Some gj.
Proof.
  intros Hrun. unfold setups in Hrun. cbn [for_each] in Hrun.
  apply bind_Done in Hrun as ([] & s1 & H1 & Hrun).
  apply bind_Done in Hrun as ([] & s2 & H2 & _).
  apply main_create_marker_Done in H1 as (ub & gb & Hub & Hgb).
  apply main_create_marker_Done in H2 as (uj & gj & Huj & Hgj).
  eauto 10.
Qed.

(** After a returning [setup_apps] the primary document is on disk. *)
Lemma setup_apps_Done_primary h fuel s cfg s' :
  setup_apps h fuel s = Done cfg s' ->
  exists f d,
    fs s' !! apps_config_file = Some f /\ fcontent f = Json d /\
    drawn s' = drawn s + 208 /\
    (fs s !! apps_config_file = None -> d = cfg) /\
    (is_Some (fs s !! apps_config_file) ->
     fs s' = fs s /\ cfg = merged_config h (drawn s) d).
Proof.
  intros Hrun.
  apply setup_apps_Done in Hrun as (s1 & n & p & env & Hpath & _ & _ & ->).
  fold apps_config_file in Hpath. cbn [fs drawn].
  destruct Hpath as [[Habs Hgen]|[Hpres Hload]].
  - apply generate_apps_config_Done in Hgen as (uid & gid & _ & _ & _ & ->).
    cbn [fs drawn]. fold apps_config_file. rewrite lookup_insert_eq.
    eexists _, cfg.
    split; [reflexivity|]. split; [reflexivity|]. split; [reflexivity|].
    split; [reflexivity|].
    rewrite Habs. intros [? ?]. discriminate.
  - apply get_config_Done in Hload as (f & d & Hf & Hd & Hcfg & ->).
    fold apps_config_file in Hf. cbn [fs drawn set_drawn].
    exists f, d.
    split; [exact Hf|]. split; [exact Hd|]. split; [reflexivity|].
    split; [rewrite Hf; discriminate|].
    intros _. split; [reflexivity | exact Hcfg].
Qed.

(** C8 as stated fails: on a restart with JUPYTER_TOKEN set in the
    environment, the secondary document gets the environment's token while
    the primary document on disk keeps the persisted one. *)
Lemma secondary_token_differs_from_primary :
  let h := Fixture.container {[ "JUPYTER_TOKEN" := "from-env" ]} 0 0 in
  let s := Fixture.restart Fixture.secrets_on_disk in
  exists s',
    main h 5 s = Done tt s' /\
    content_at s' apps_config_file = Some (Json Fixture.secrets_on_disk) /\
    get "JUPYTER_TOKEN" Fixture.secrets_on_disk = Some "t0" /\
    content_at s' jupyter_config_file
      = Some (Json [("JUPYTER_TOKEN", "from-env")]).
Proof.
  intros h s. eexists. split; [vm_compute; reflexivity|].
  split; [vm_compute; reflexivity|]. split; [reflexivity|].
  vm_compute; reflexivity.
Qed.

(** C8, amended. After every successful run the secondary document holds
    exactly one key, JUPYTER_TOKEN, written in that run; its value is the
    environment variable JUPYTER_TOKEN when that is set, else the token of
    the primary document on disk when it has one, else a secret drawn for
    the occasion.  With JUPYTER_TOKEN unset it is the token of the primary
    document whenever that document has one. *)
Theorem secondary_document h fuel s u s' :
  main h fuel s = Done u s' ->
  exists d,
    let cfg := [("JUPYTER_TOKEN", jupyter_token h (drawn s + 208) d)] in
    content_at s' apps_config_file = Some (Json d) /\
    content_at s' jupyter_config_file = Some (Json cfg) /\
    (exists evs, trace s' = trace s ++ evs /\
                 WriteJson jupyter_config_file cfg ∈ evs) /\
    (environ h !! "JUPYTER_TOKEN" = None ->
     forall t, get "JUPYTER_TOKEN" d = Some t ->
               content_at s' jupyter_config_file
                 = Some (Json [("JUPYTER_TOKEN", t)])).
Proof.
  intros Hrun.
  apply main_Done in Hrun as (s0 & cfg0 & s1 & s2 & H0 & H1 & H2 & H3).
  destruct (create_markers_Done _ _ _ _ H0)
    as (ub & gb & uj & gj & Hub & Hgb & Huj & Hgj).
  destruct (create_markers_run h s ub gb uj gj Hub Hgb Huj Hgj)
    as (s0' & H0' & Htr0 & _ & _ & Hdr0 & _ & _).
  rewrite H0 in H0'. injection H0' as <-.
  destruct (setup_apps_Done_primary _ _ _ _ _ H1)
    as (f & d & Hf & Hd & Hdr1 & _ & _).
  destruct (steady_setup_apps h fuel s0) as [(evs1 & Htr1 & _) _].
  rewrite H1 in Htr1. cbn [final] in Htr1.
  destruct (generate_jupyter_config_run h s1 f d Hf Hd)
    as (s2' & H2' & Htr2 & Hjup & Hother & _ & _).
  unfold setup_jupyter in H2. rewrite H2 in H2'. injection H2' as <-.
  apply remove_markers_Done in H3 as ->.
  rewrite Hdr1, Hdr0 in Htr2, Hjup.
  assert (Hkeep : forall p, p <> apps_marker -> p <> jupyter_marker ->
            content_at (State (delete jupyter_marker (delete apps_marker (fs s2)))
                          (drawn s2) (attempts s2)
                          (trace s2 ++ [Unlink apps_marker; Unlink jupyter_marker])) p
            = content_at s2 p).
  { intros p Hp1 Hp2. unfold content_at. cbn [fs].
    now rewrite !lookup_delete_ne. }
  exists d. cbv zeta.
  assert (Hsec : content_at
            (State (delete jupyter_marker (delete apps_marker (fs s2)))
               (drawn s2) (attempts s2)
               (trace s2 ++ [Unlink apps_marker; Unlink jupyter_marker]))
            jupyter_config_file
          = Some (Json [("JUPYTER_TOKEN", jupyter_token h (drawn s + 208) d)])).
  { rewrite Hkeep by paths_differ. exact Hjup. }
  split.
  { rewrite Hkeep by paths_differ. rewrite Hother by paths_differ.
    unfold content_at. now rewrite Hf, <- Hd. }
  split; [exact Hsec|]. split.
  - eexists. cbn [trace]. rewrite Htr2, Htr1, Htr0, <- !app_assoc.
    split; [reflexivity|].
    rewrite !elem_of_app. right. right. left. apply elem_of_cons. now left.
  - intros Henv t Ht. rewrite Hsec. unfold jupyter_token. now rewrite Henv, Ht.
Qed.

Lemma secondary_document_witness :
  let h := Fixture.container ∅ 1 0 in
  exists s' d t,
    main h 5 Fixture.first_start = Done tt s' /\
    content_at s' apps_config_file = Some (Json d) /\
    get "JUPYTER_TOKEN" d = Some t /\
    content_at s' jupyter_config_file = Some (Json [("JUPYTER_TOKEN", t)]).
Proof.
  intros h. set (s' := final (main h 5 Fixture.first_start)).
  assert (Hrun : main h 5 Fixture.first_start = Done tt s')
    by (vm_compute; reflexivity).
  destruct (secondary_document h 5 Fixture.first_start tt s' Hrun)
    as (d & Hprim & Hsec & _ & Hsame).
  exists s', d, (jupyter_token h 208 d).
  split; [exact Hrun|]. split; [exact Hprim|]. split; [|exact Hsec].
  vm_compute in Hprim. injection Hprim as <-. vm_compute. reflexivity.
Defined.

(** *** Events before and after the rotation *)
















Lemma filter_spawn_refused n : List.filter is_spawn (refused n) = [].
Proof. induction n as [|n IH]; [reflexivity | exact IH]. Qed.

Lemma config_phase_spawns h s cfg s1 :
  (fs s !! get_config_path APPS_CONFIG_DIR = None /\
   generate_apps_config h s = Done cfg s1) \/
  (is_Some (fs s !! get_config_path APPS_CONFIG_DIR) /\
   get_config h APPS_CONFIG_DIR s = Done cfg s1) ->
  exists written,
    trace s1 = trace s ++ written /\ List.filter is_spawn written = [].
Proof.
  intros [[_ Hgen]|[_ Hload]].
  - apply generate_apps_config_Done in Hgen as (uid & gid & _ & _ & _ & ->).
    eexists. split; reflexivity.
  - apply get_config_Done in Hload as (f & d & _ & _ & _ & ->).
    exists []. split; [symmetry; apply app_nil_r | reflexivity].
Qed.

(** A run of [main] that completes spawned one child, which exited 0. *)
Lemma main_Done_spawns h fuel s u s' :
  main h fuel s = Done u s' ->
  exists evs env,
    trace s' = trace s ++ evs /\
    List.filter is_spawn evs = [Spawn prisma_argv env "/app/api/" 0].
Proof.
  intros Hrun.
  apply main_Done in Hrun as (s0 & cfg & s1 & s2 & H0 & H1 & H2 & H3).
  destruct (create_markers_Done _ _ _ _ H0)
    as (ub & gb & uj & gj & Hub & Hgb & Huj & Hgj).
  destruct (create_markers_run h s ub gb uj gj Hub Hgb Huj Hgj)
    as (s0' & H0' & Htr0 & _).
  rewrite H0 in H0'. injection H0' as <-.
  destruct (setup_apps_Done_primary _ _ _ _ _ H1) as (f & d & Hf & Hd & _).
  destruct (generate_jupyter_config_run h s1 f d Hf Hd)
    as (s2' & H2' & Htr2 & _).
  unfold setup_jupyter in H2. rewrite H2 in H2'. injection H2' as <-.
  apply remove_markers_Done in H3 as ->.
  apply setup_apps_Done in H1 as (sc & n & p & env & Hpath & _ & Hp & Hs1).
  destruct (config_phase_spawns _ _ _ _ Hpath) as (written & Htrc & Hnone).
  eexists _, env.
  cbn [trace]. rewrite Htr2, Hs1. cbn [trace]. rewrite Htrc, Htr0.
  rewrite <- !app_assoc. split; [reflexivity|].
  rewrite !List.filter_app, Hnone, filter_spawn_refused. reflexivity.
Qed.

Lemma main_unfold h fuel s :
  main h fuel s =
    match for_each (main_create_marker h) setups s with
    | Done _ s0 =>
        match (do cfg <- setup_apps h fuel; setup_jupyter h) s0 with
        | Done _ s2 => for_each main_remove_marker setups s2
        | Raised e s2 => Raised e s2
        | Waiting s2 => Waiting s2
        end
    | Raised e s0 => Raised e s0
    | Waiting s0 => Waiting s0
    end.
Proof.
  unfold main, bind.
  destruct (for_each (main_create_marker h) setups s); [|reflexivity..].
  destruct (setup_apps h fuel s0); [|reflexivity..].
  destruct (setup_jupyter h s1); reflexivity.
Qed.

Lemma steady_provision h fuel :
  steady provisioning (do cfg <- setup_apps h fuel; setup_jupyter h).
Proof.
  apply steady_bind; [apply steady_setup_apps | intros _; apply steady_setup_jupyter].
Qed.

(** C4. With both accounts known, the markers are touched and chowned
    before anything else happens; the events that follow are provisioning
    events, none of which touches or removes a marker.  A run that
    completes removes both markers as its last two events, and its
    migration child exited 0.  A run that raises, or is still waiting,
    leaves both markers in place, and a run that raises ends with a
    nonzero exit status. *)
Theorem marker_lifecycle h fuel s ub gb uj gj :
  passwd h !! "briefer" = Some ub -> group h !! "briefer" = Some gb ->
  passwd h !! "jupyteruser" = Some uj -> group h !! "jupyteruser" = Some gj ->
  let created := [ Touch apps_marker; Chown apps_marker ub gb;
                   Touch jupyter_marker; Chown jupyter_marker uj gj ] in
  exists evs,
    Forall provisioning evs /\
    (forall u s', main h fuel s = Done u s' ->
       trace s' = trace s ++ created ++ evs
                    ++ [Unlink apps_marker; Unlink jupyter_marker] /\
       fs s' !! apps_marker = None /\ fs s' !! jupyter_marker = None /\
       forall argv env cwd rc, Spawn argv env cwd rc ∈ evs -> rc = 0%Z) /\
    (forall e s', main h fuel s = Raised e s' ->
       trace s' = trace s ++ created ++ evs /\
       is_Some (fs s' !! apps_marker) /\ is_Some (fs s' !! jupyter_marker) /\
       exit_status (main h fuel s) = Some 1%Z) /\
    (forall s', main h fuel s = Waiting s' ->
       trace s' = trace s ++ created ++ evs /\
       is_Some (fs s' !! apps_marker) /\ is_Some (fs s' !! jupyter_marker)).
Proof.
  intros Hub Hgb Huj Hgj created.
  destruct (create_markers_run h s ub gb uj gj Hub Hgb Huj Hgj)
    as (s0 & H0 & Htr0 & Hm1 & Hm2 & _).
  fold created in Htr0.
  destruct (steady_provision h fuel s0) as [(evs & Htr & Hall) Hkeep].
  pose proof (Hkeep _ Hm1) as Hk1. pose proof (Hkeep _ Hm2) as Hk2.
  exists evs. split; [exact Hall|].
  pose proof (main_unfold h fuel s) as Hmain. rewrite H0 in Hmain.
  destruct ((do cfg <- setup_apps h fuel; setup_jupyter h) s0)
    as [[] s2|e s2|s2]; cbn [final] in *.
  - rewrite (remove_markers_run s2 Hk1 Hk2) in Hmain.
    split; [|split; intros; congruence].
    intros [] s' Hdone. pose proof Hdone as Hsp.
    rewrite Hmain in Hdone. injection Hdone as <-. cbn [trace fs].
    assert (Htrace : trace s2 ++ [Unlink apps_marker; Unlink jupyter_marker]
              = trace s ++ created ++ evs
                  ++ [Unlink apps_marker; Unlink jupyter_marker])
      by (now rewrite Htr, Htr0, <- !app_assoc).
    split; [exact Htrace|].
    split; [rewrite lookup_delete_ne by paths_differ; apply lookup_delete_eq|].
    split; [apply lookup_delete_eq|].
    intros argv env cwd rc Hin.
    apply main_Done_spawns in Hsp as (evs' & env' & Htr' & Hone).
    cbn [trace] in Htr'. rewrite Htrace in Htr'.
    apply app_inv_head in Htr'. subst evs'.
    assert (Hf : In (Spawn argv env cwd rc)
                   (List.filter is_spawn
                      (created ++ evs
                         ++ [Unlink apps_marker; Unlink jupyter_marker]))).
    { apply List.filter_In. split; [|reflexivity].
      apply list_elem_of_In. rewrite !elem_of_app. right. now left. }
    rewrite Hone in Hf. destruct Hf as [Heq|[]]. now injection Heq.
  - split; [intros; congruence|]. split; [|intros; congruence].
    intros e' s' Hr. rewrite Hmain in Hr. injection Hr as <- <-.
    split; [now rewrite Htr, Htr0, <- app_assoc|].
    split; [exact Hk1|]. split; [exact Hk2|]. now rewrite Hmain.
  - split; [intros; congruence|]. split; [intros; congruence|].
    intros s' Hw. rewrite Hmain in Hw. injection Hw as <-.
    split; [now rewrite Htr, Htr0, <- app_assoc|]. auto.
Qed.

Lemma marker_lifecycle_witness :
  (passwd (Fixture.container ∅ 1 1) !! "briefer" = Some 1000%N /\
   group (Fixture.container ∅ 1 1) !! "briefer" = Some 1000%N /\
   passwd (Fixture.container ∅ 1 1) !! "jupyteruser" = Some 1001%N /\
   group (Fixture.container ∅ 1 1) !! "jupyteruser" = Some 1001%N) /\
  (exists s',
     main (Fixture.container ∅ 1 1) 5 Fixture.first_start
       = Raised (CalledProcessError 1) s' /\
     is_Some (fs s' !! apps_marker) /\ is_Some (fs s' !! jupyter_marker) /\
     exit_status (main (Fixture.container ∅ 1 1) 5 Fixture.first_start)
       = Some 1%Z) /\
  (exists s',
     main (Fixture.container ∅ 1 0) 5 Fixture.first_start = Done tt s' /\
     fs s' !! apps_marker = None /\ fs s' !! jupyter_marker = None).
Proof.
  split; [repeat split; reflexivity|]. split.
  - set (h := Fixture.container ∅ 1 1).
    set (s' := final (main h 5 Fixture.first_start)).
    assert (Hrun : main h 5 Fixture.first_start = Raised (CalledProcessError 1) s')
      by (vm_compute; reflexivity).
    destruct (marker_lifecycle h 5 Fixture.first_start 1000 1000 1001 1001
                eq_refl eq_refl eq_refl eq_refl)
      as (evs & _ & _ & Hraised & _).
    destruct (Hraised _ _ Hrun) as (_ & H1 & H2 & Hexit).
    exists s'. auto.
  - set (h := Fixture.container ∅ 1 0).
    set (s' := final (main h 5 Fixture.first_start)).
    assert (Hrun : main h 5 Fixture.first_start = Done tt s')
      by (vm_compute; reflexivity).
    destruct (marker_lifecycle h 5 Fixture.first_start 1000 1000 1001 1001
                eq_refl eq_refl eq_refl eq_refl)
      as (evs & _ & Hdone & _).
    destruct (Hdone _ _ Hrun) as (_ & H1 & H2 & _).
    exists s'. auto.
Defined.

(** * Further properties of the script *)

(** ** Secrets *)

Lemma hex_byte_digits b :
  is_hex_digit (hex_digit (Byte.to_N b / 16)) = true /\
  is_hex_digit (hex_digit (Byte.to_N b mod 16)) = true.
Proof. destruct b; split; reflexivity. Qed.

Lemma hex_shape bs :
  String.length (hex bs) = 2 * length bs /\
  string_forall is_hex_digit (hex bs) = true.
Proof.
  induction bs as [|b bs [IHl IHd]]; [split; reflexivity|].
  rewrite hex_cons. cbn [String.length string_forall length].
  destruct (hex_byte_digits b) as [-> ->]. rewrite IHl, IHd.
  split; [lia | reflexivity].
Qed.

(** X1. A secret of [size] bytes is a text of exactly [2 * size]
    characters, each a lowercase hexadecimal digit, made from the next
    [size] bytes of entropy, which are then used up. *)
Theorem secret_shape h size s :
  exists secret,
    get_random_secret h size s = Done secret (set_drawn (drawn s + size) s) /\
    secret = hex (map (entropy h) (seq (drawn s) size)) /\
    String.length secret = 2 * size /\
    string_forall is_hex_digit secret = true.
Proof.
  eexists. split; [reflexivity|]. split; [reflexivity|].
  destruct (hex_shape (map (entropy h) (seq (drawn s) size))) as [Hl Hd].
  rewrite Hl, length_map, length_seq. auto.
Qed.

(** X2. The hexadecimal rendering loses nothing: byte strings with the
    same rendering are equal. *)
Theorem hex_injective bs1 bs2 : hex bs1 = hex bs2 <-> bs1 = bs2.
Proof.
  split; [|now intros ->].
  intros Heq. apply (f_equal unhex) in Heq. rewrite !unhex_hex in Heq.
  now injection Heq.
Qed.

(** ** Loading and persisting *)



Lemma mem_keys k d : mem k d = true <-> k ∈ keys d.
Proof.
  induction d as [|[k' v'] d IH]; cbn [mem keys map fst].
  - split; [discriminate | intros H; inversion H].
  - rewrite elem_of_cons. destruct (String.eqb_spec k k') as [->|Hne].
    + split; auto.
    + rewrite IH. unfold keys. split; [auto | intros [?|?]; [contradiction | auto]].
Qed.

Lemma keys_set k v d :
  keys (set k v d) = if mem k d then keys d else keys d ++ [k].
Proof.
  induction d as [|[k' v'] d IH]; [reflexivity|].
  cbn [set mem]. destruct (String.eqb k k'); [reflexivity|].
  cbn [keys map fst]. fold (keys (set k v d)) (keys d). rewrite IH.
  now destruct (mem k d).
Qed.

Lemma mem_set_ne k k' v d : k <> k' -> mem k (set k' v d) = mem k d.
Proof.
  intros Hne. induction d as [|[k0 v0] d IH]; cbn [set mem].
  - destruct (String.eqb_spec k k'); [contradiction | reflexivity].
  - destruct (String.eqb k' k0); cbn [mem]; [reflexivity|].
    now rewrite IH.
Qed.

Lemma keys_get_config_step h cfg k dv :
  keys (get_config_step h cfg (k, dv)) =
    if mem k cfg then keys cfg else keys cfg ++ [k].
Proof.
  unfold get_config_step. destruct (environ h !! k).
  - apply keys_set.
  - destruct (mem k cfg) eqn:Hm; [reflexivity|]. now rewrite keys_set, Hm.
Qed.

Lemma mem_get_config_step_ne h cfg k dv k' :
  k' <> k -> mem k' (get_config_step h cfg (k, dv)) = mem k' cfg.
Proof.
  intros Hne. unfold get_config_step. destruct (environ h !! k).
  - now apply mem_set_ne.
  - destruct (mem k cfg); [reflexivity | now apply mem_set_ne].
Qed.

Lemma keys_fold_get_config_step h defs cfg :
  NoDup (keys defs) ->
  keys (fold_left (get_config_step h) defs cfg) =
    keys cfg ++ List.filter (fun k => negb (mem k cfg)) (keys defs).
Proof.
  revert cfg. induction defs as [|[k dv] defs IH]; intros cfg Hnd.
  - cbn. now rewrite app_nil_r.
  - cbn [keys map fst] in Hnd. fold (keys defs) in Hnd.
    apply NoDup_cons in Hnd as [Hk Hnd].
    cbn [fold_left]. rewrite (IH _ Hnd), keys_get_config_step.
    cbn [keys map fst List.filter]. fold (keys defs).
    rewrite (List.filter_ext_in
               (fun k0 => negb (mem k0 (get_config_step h cfg (k, dv))))
               (fun k0 => negb (mem k0 cfg))).
    + destruct (mem k cfg); cbn [negb]; [reflexivity|].
      now rewrite <- app_assoc.
    + intros k' Hin. rewrite mem_get_config_step_ne; [reflexivity|].
      intros ->. apply Hk. now apply list_elem_of_In.
Qed.

Lemma NoDup_canonical_keys : NoDup canonical_keys.
Proof. apply (bool_decide_unpack _). vm_compute. exact I. Qed.

(** X4. Loading never drops or moves a persisted key: the keys of the
    result are the keys of the persisted document in their order, followed
    by the canonical keys it lacks in canonical order; and a key that is
    not canonical keeps its persisted value, or its absence, whatever the
    environment holds. *)
Theorem get_config_keeps_document h dir s f d :
  fs s !! get_config_path dir = Some f -> fcontent f = Json d ->
  exists cfg s',
    get_config h dir s = Done cfg s' /\
    keys cfg = keys d ++ List.filter (fun k => negb (mem k d)) canonical_keys /\
    forall K, K ∉ canonical_keys -> get K cfg = get K d.
Proof.
  intros Hf Hd. eexists _, _.
  split; [exact (get_config_run h dir s f d Hf Hd)|].
  unfold merged_config. split.
  - rewrite keys_fold_get_config_step; [reflexivity|].
    rewrite keys_default_document. apply NoDup_canonical_keys.
  - intros K HK. rewrite get_fold_get_config_step.
    destruct (mem K (default_document _)) eqn:Hm; [|reflexivity].
    apply mem_keys in Hm. rewrite keys_default_document in Hm. contradiction.
Qed.

Lemma get_config_keeps_document_witness :
  let h := Fixture.container {[ "THEME" := "dark"; "LOG_LEVEL" := "warn" ]} 0 0 in
  let d := [("THEME", "light"); ("LOG_LEVEL", "debug")] in
  fs (Fixture.restart d) !! get_config_path APPS_CONFIG_DIR
    = Some (File (Json d) (1000%N, 1000%N) 448) /\
  exists cfg s',
    get_config h APPS_CONFIG_DIR (Fixture.restart d) = Done cfg s' /\
    firstn 2 (keys cfg) = ["THEME"; "LOG_LEVEL"] /\
    get "THEME" cfg = Some "light".
Proof.
  intros h d. split; [reflexivity|].
  destruct (get_config_keeps_document h APPS_CONFIG_DIR (Fixture.restart d)
              _ d eq_refl eq_refl) as (cfg & s' & Hrun & Hkeys & Hforeign).
  exists cfg, s'. split; [exact Hrun|]. split.
  - rewrite Hkeys. reflexivity.
  - rewrite Hforeign; [reflexivity|].
    intros Hin. apply list_elem_of_In in Hin. vm_compute in Hin.
    repeat (destruct Hin as [Hin|Hin]; [discriminate Hin|]). exact Hin.
Defined.

Lemma set_same k v d : get k d = Some v -> set k v d = d.
Proof.
  induction d as [|[k' v'] d IH]; cbn [get set]; [discriminate|].
  destruct (String.eqb k k'); [now intros [= ->] | intros H; now rewrite IH].
Qed.

Lemma fold_get_config_step_settled h defs cfg :
  (forall k, k ∈ keys defs ->
             mem k cfg = true /\
             forall v, environ h !! k = Some v -> get k cfg = Some v) ->
  fold_left (get_config_step h) defs cfg = cfg.
Proof.
  induction defs as [|[k dv] defs IH]; intros Hall; [reflexivity|].
  cbn [fold_left].
  assert (Hstep : get_config_step h cfg (k, dv) = cfg).
  { destruct (Hall k) as [Hm Hv]; [cbn; apply elem_of_cons; now left|].
    unfold get_config_step. destruct (environ h !! k) as [v|].
    - apply set_same. now apply Hv.
    - now rewrite Hm. }
  rewrite Hstep. apply IH. intros k' Hk'. apply Hall.
  cbn. apply elem_of_cons. now right.
Qed.

Lemma get_apps_config h n K :
  K ∈ canonical_keys ->
  get K (apps_config h n) =
    match environ h !! K with
    | Some v => Some v
    | None => get K (default_document (secrets_from h n secret_sizes))
    end.
Proof.
  intros HK. unfold apps_config. rewrite get_fold_generate_apps_config_step.
  destruct (environ h !! K); [|reflexivity].
  now rewrite (bool_decide_eq_true_2 _ HK).
Qed.

Lemma merged_apps_config h n n' : merged_config h n' (apps_config h n) = apps_config h n.
Proof.
  unfold merged_config. apply fold_get_config_step_settled.
  rewrite keys_default_document. intros k Hk.
  pose proof (get_apps_config h n k Hk) as Hget. split.
  - destruct (environ h !! k) as [v|]; [now apply (get_Some_mem _ v)|].
    destruct (mem_true_get _ _ (mem_default_document k h n Hk)) as [v Hv].
    rewrite Hv in Hget. now apply (get_Some_mem _ v).
  - intros v Hv. now rewrite Hv in Hget.
Qed.

(** X5. What the first run generates is what a restart loads: with the
    same environment, [get_config] on the file [generate_apps_config] has
    just written returns the very document that was generated, secrets
    included, and leaves the file as it is. *)
Theorem restart_reloads_generated h s uid gid :
  passwd h !! "briefer" = Some uid -> group h !! "briefer" = Some gid ->
  exists cfg s1 s2,
    generate_apps_config h s = Done cfg s1 /\
    get_config h APPS_CONFIG_DIR s1 = Done cfg s2 /\
    fs s2 = fs s1 /\
    fs s1 !! apps_config_file = Some (File (Json cfg) (uid, gid) 448).
Proof.
  intros Hu Hg. eexists _, _, _.
  split; [exact (generate_apps_config_run h s uid gid Hu Hg)|].
  split.
  - erewrite get_config_run;
      [|cbn [fs]; apply lookup_insert_eq | reflexivity].
    cbn [drawn]. now rewrite merged_apps_config.
  - split; [reflexivity|]. cbn [fs]. apply lookup_insert_eq.
Qed.

Lemma restart_reloads_generated_witness :
  let h := Fixture.container {[ "LOG_LEVEL" := "warn" ]} 0 0 in
  (passwd h !! "briefer" = Some 1000%N /\ group h !! "briefer" = Some 1000%N) /\
  exists cfg s1 s2,
    generate_apps_config h Fixture.first_start = Done cfg s1 /\
    get_config h APPS_CONFIG_DIR s1 = Done cfg s2.
Proof.
  intros h. split; [split; reflexivity|].
  destruct (restart_reloads_generated h Fixture.first_start 1000 1000
              eq_refl eq_refl) as (cfg & s1 & s2 & Hgen & Hload & _).
  exists cfg, s1, s2. auto.
Defined.

Lemma apps_config_keys h n :
  keys (apps_config h n) = canonical_keys /\
  forall K, K ∉ canonical_keys -> get K (apps_config h n) = None.
Proof.
  assert (Hkeys : forall ks cfg,
            (forall k, k ∈ ks -> mem k cfg = true) ->
            keys (fold_left (generate_apps_config_step h) ks cfg) = keys cfg).
  { induction ks as [|k ks IH]; intros cfg Hall; [reflexivity|].
    cbn [fold_left].
    assert (Hk : mem k cfg = true) by (apply Hall, elem_of_cons; now left).
    assert (Hstep : keys (generate_apps_config_step h cfg k) = keys cfg).
    { unfold generate_apps_config_step.
      destruct (environ h !! k); [now apply keys_set_mem | reflexivity]. }
    rewrite IH, Hstep; [reflexivity|].
    intros k' Hk'. apply mem_keys. rewrite Hstep. apply mem_keys.
    apply Hall, elem_of_cons. now right. }
  assert (Hk : keys (apps_config h n) = canonical_keys).
  { unfold apps_config. rewrite Hkeys; [apply keys_default_document|].
    intros k Hk. now apply mem_default_document. }
  split; [exact Hk|].
  intros K HK. destruct (get K (apps_config h n)) as [v|] eqn:Hget; [|reflexivity].
  apply get_Some_mem, mem_keys in Hget. rewrite Hk in Hget. contradiction.
Qed.

(** X6. The document [generate_apps_config] returns has exactly the
    canonical keys, in canonical order, whatever the environment holds: an
    override replaces a value in place, and an environment variable that is
    not a canonical key does not enter the document. *)
Theorem generated_keys_canonical h s cfg s' :
  generate_apps_config h s = Done cfg s' ->
  keys cfg = canonical_keys /\
  forall K, K ∉ canonical_keys -> get K cfg = None.
Proof.
  intros Hrun.
  apply generate_apps_config_Done in Hrun as (uid & gid & _ & _ & -> & _).
  apply apps_config_keys.
Qed.

Lemma generated_keys_canonical_witness :
  let h := Fixture.container {[ "THEME" := "dark"; "LOG_LEVEL" := "warn" ]} 0 0 in
  exists cfg s',
    generate_apps_config h Fixture.first_start = Done cfg s' /\
    keys cfg = canonical_keys /\
    get "THEME" cfg = None /\ get "LOG_LEVEL" cfg = Some "warn".
Proof.
  intros h. set (o := generate_apps_config h Fixture.first_start).
  assert (Hrun : exists cfg s', o = Done cfg s')
    by (eexists _, _; vm_compute; reflexivity).
  destruct Hrun as (cfg & s' & Hrun).
  destruct (generated_keys_canonical h _ cfg s' Hrun) as [Hkeys Hforeign].
  exists cfg, s'. split; [exact Hrun|]. split; [exact Hkeys|]. split.
  - apply Hforeign. intros Hin. apply list_elem_of_In in Hin. vm_compute in Hin.
    repeat (destruct Hin as [Hin|Hin]; [discriminate Hin|]). exact Hin.
  - subst o. vm_compute in Hrun. injection Hrun as <- _. reflexivity.
Defined.

(** X7. When the account briefer is unknown, [generate_apps_config]
    raises [KeyError] only after the document is on disk: the file then
    holds the generated document, was neither chowned nor chmodded, and a
    later [get_config] loads that very document. *)
Theorem unknown_account_leaves_document h s :
  passwd h !! "briefer" = None \/ group h !! "briefer" = None ->
  exists cfg s',
    generate_apps_config h s = Raised (KeyError "briefer") s' /\
    trace s' = trace s ++ [WriteJson apps_config_file cfg] /\
    content_at s' apps_config_file = Some (Json cfg) /\
    (fs s !! apps_config_file = None ->
     fs s' !! apps_config_file = Some (created (Json cfg))) /\
    exists s'', get_config h APPS_CONFIG_DIR s' = Done cfg s''.
Proof.
  intros Hmissing.
  set (cfg := apps_config h (drawn s)).
  set (f := match fs s !! apps_config_file with
            | Some f => File (Json cfg) (fowner f) (fmode f)
            | None => created (Json cfg)
            end).
  set (s' := State (<[apps_config_file := f]> (fs s)) (drawn s + 208)
               (attempts s) (trace s ++ [WriteJson apps_config_file cfg])).
  assert (Hrun : generate_apps_config h s = Raised (KeyError "briefer") s').
  { unfold generate_apps_config, bind.
    rewrite generate_default_config_run, keys_default_document.
    fold (apps_config h (drawn s)). fold cfg. fold apps_config_file.
    unfold json_dump, getpwnam, getgrnam. unfold_state. fold f.
    destruct Hmissing as [Hu|Hg].
    - rewrite Hu. reflexivity.
    - destruct (passwd h !! "briefer"); rewrite Hg; reflexivity. }
  assert (Hc : fcontent f = Json cfg)
    by (unfold f; now destruct (fs s !! apps_config_file)).
  exists cfg, s'. split; [exact Hrun|]. split; [reflexivity|].
  assert (Hs' : fs s' !! apps_config_file = Some f)
    by exact (lookup_insert_eq (fs s) apps_config_file f).
  split; [unfold content_at; now rewrite Hs', <- Hc|].
  split.
  - intros Habs. rewrite Hs'. unfold f. now rewrite Habs.
  - assert (Hf : fs s' !! get_config_path APPS_CONFIG_DIR = Some f)
      by exact (lookup_insert_eq (fs s) apps_config_file f).
    eexists. rewrite (get_config_run h _ s' f cfg Hf Hc).
    unfold cfg. now rewrite merged_apps_config.
Qed.

Lemma unknown_account_leaves_document_witness :
  let h := Host ∅ ∅ ∅ Fixture.counting (fun _ => true) (fun _ => true)
             (fun _ => 0%Z) in
  (passwd h !! "briefer" = None \/ group h !! "briefer" = None) /\
  exists cfg s',
    generate_apps_config h Fixture.first_start = Raised (KeyError "briefer") s' /\
    fs s' !! apps_config_file = Some (File (Json cfg) (0%N, 0%N) 420).
Proof.
  intros h. split; [left; reflexivity|].
  destruct (unknown_account_leaves_document h Fixture.first_start
              (or_introl eq_refl)) as (cfg & s' & Hrun & _ & _ & Hnew & _).
  exists cfg, s'. split; [exact Hrun|]. now apply Hnew.
Defined.

(** ** Failures of the migration and of the rotation *)

Ltac in_list := apply list_elem_of_In; cbn; tauto.

Lemma run_migrations_missing h cfg s :
  (exists k, k ∈ postgres_keys /\ get k cfg = None) ->
  exists k, k ∈ postgres_keys /\ get k cfg = None /\
            run_migrations h cfg s = Raised (KeyError k) s.
Proof.
  intros Hmiss. unfold run_migrations, getitem, postgres_keys in *.
  destruct (get "POSTGRES_USERNAME" cfg) eqn:H1;
    [|exists "POSTGRES_USERNAME"; repeat split; auto; in_list].
  destruct (get "POSTGRES_PASSWORD" cfg) eqn:H2;
    [|exists "POSTGRES_PASSWORD"; repeat split; auto; in_list].
  destruct (get "POSTGRES_HOSTNAME" cfg) eqn:H3;
    [|exists "POSTGRES_HOSTNAME"; repeat split; auto; in_list].
  destruct (get "POSTGRES_PORT" cfg) eqn:H4;
    [|exists "POSTGRES_PORT"; repeat split; auto; in_list].
  destruct (get "POSTGRES_DATABASE" cfg) eqn:H5;
    [|exists "POSTGRES_DATABASE"; repeat split; auto; in_list].
  destruct Hmiss as (k & Hk & Hnone). exfalso.
  repeat (apply elem_of_cons in Hk as [->|Hk]; [congruence|]).
  inversion Hk.
Qed.

(** X8. [run_migrations] raises [KeyError] without spawning anything when
    the configuration lacks one of the five POSTGRES_* keys.  Otherwise it
    spawns exactly one child, in /app/api/ with the fixed prisma command
    line, and returns when that child exits 0 and raises
    [CalledProcessError] with the child's status when it does not; the file
    system is left alone either way. *)
Theorem run_migrations_outcome h cfg s :
  ((exists k, k ∈ postgres_keys /\ get k cfg = None) ->
   exists k, k ∈ postgres_keys /\ get k cfg = None /\
             run_migrations h cfg s = Raised (KeyError k) s) /\
  ((forall k, k ∈ postgres_keys -> is_Some (get k cfg)) ->
   exists env,
     let rc := npx h env in
     let s' := State (fs s) (drawn s) (attempts s)
                 (trace s ++ [Spawn prisma_argv env "/app/api/" rc]) in
     (rc = 0%Z -> run_migrations h cfg s = Done tt s') /\
     (rc <> 0%Z -> run_migrations h cfg s = Raised (CalledProcessError rc) s')).
Proof.
  split; [apply run_migrations_missing|].
  intros Hall.
  assert (Hget : forall k, k ∈ postgres_keys -> exists v, get k cfg = Some v)
    by (intros k Hk; exact (Hall k Hk)).
  unfold postgres_keys in Hget.
  destruct (Hget "POSTGRES_USERNAME") as [un Hu]; [in_list|].
  destruct (Hget "POSTGRES_PASSWORD") as [pw Hp]; [in_list|].
  destruct (Hget "POSTGRES_HOSTNAME") as [hn Hh]; [in_list|].
  destruct (Hget "POSTGRES_PORT") as [po Hpo]; [in_list|].
  destruct (Hget "POSTGRES_DATABASE") as [db Hd]; [in_list|].
  pose proof (run_migrations_run h cfg s _ _ _ _ _ Hu Hp Hh Hpo Hd) as Hrun.
  cbv zeta in Hrun. eexists. cbv zeta. split; intros Hrc; rewrite Hrun.
  - rewrite Hrc. reflexivity.
  - apply Z.eqb_neq in Hrc. rewrite Hrc. reflexivity.
Qed.

Lemma run_migrations_outcome_witness :
  let cfg := [ ("POSTGRES_USERNAME", "briefer"); ("POSTGRES_PASSWORD", "s3cret");
               ("POSTGRES_HOSTNAME", "localhost"); ("POSTGRES_PORT", "5432");
               ("POSTGRES_DATABASE", "briefer") ] in
  (exists s', run_migrations (Fixture.container ∅ 0 3) cfg Fixture.first_start
                = Raised (CalledProcessError 3) s') /\
  (exists k, run_migrations (Fixture.container ∅ 0 0) [] Fixture.first_start
               = Raised (KeyError k) Fixture.first_start).
Proof.
  intros cfg. split.
  - destruct (proj2 (run_migrations_outcome (Fixture.container ∅ 0 3) cfg
                       Fixture.first_start)) as (env & _ & Hfail).
    { intros k Hk. apply list_elem_of_In in Hk. cbn in Hk.
      repeat (destruct Hk as [<-|Hk]; [eexists; reflexivity|]). contradiction. }
    eexists. apply Hfail. discriminate.
  - destruct (proj1 (run_migrations_outcome (Fixture.container ∅ 0 0) []
                       Fixture.first_start)) as (k & _ & _ & Hrun).
    { exists "POSTGRES_PORT". split; [|reflexivity].
      apply list_elem_of_In. cbn. tauto. }
    exists k. exact Hrun.
Defined.

(** X9. In the rotation, a refused connection raises [OperationalError]
    before any statement is sent, a configuration without
    POSTGRES_PASSWORD raises [KeyError] after the connection is open, and a
    statement the database rejects raises without a commit: [Commit]
    appears exactly in the runs that return. *)
Theorem rotation_outcome h cfg s :
  exists evs,
    trace (final (setup_apps_rotate h cfg s)) = trace s ++ evs /\
    fs (final (setup_apps_rotate h cfg s)) = fs s /\
    (pg_accepts h (attempts s) = false ->
     setup_apps_rotate h cfg s
       = Raised OperationalError (final (setup_apps_rotate h cfg s)) /\
     evs = [attempt false]) /\
    (pg_accepts h (attempts s) = true -> get "POSTGRES_PASSWORD" cfg = None ->
     setup_apps_rotate h cfg s
       = Raised (KeyError "POSTGRES_PASSWORD") (final (setup_apps_rotate h cfg s)) /\
     evs = [attempt true]) /\
    (Commit ∈ evs <-> exists s', setup_apps_rotate h cfg s = Done tt s').
Proof.
  rewrite setup_apps_rotate_run. cbv zeta.
  destruct (pg_accepts h (attempts s)).
  - destruct (get "POSTGRES_PASSWORD" cfg) as [p|].
    + destruct (pg_executes h _); eexists; cbn [final trace fs];
        (split; [reflexivity|]); (split; [reflexivity|]);
        (split; [discriminate|]); (split; [discriminate|]).
      * split; [eauto | intros _; in_list].
      * split; [|intros [? ?]; discriminate].
        intros Hin. apply list_elem_of_In in Hin. cbn in Hin.
        destruct Hin as [H|[H|[]]]; discriminate H.
    + eexists; cbn [final trace fs].
      split; [reflexivity|]. split; [reflexivity|].
      split; [discriminate|]. split; [auto|].
      split; [|intros [? ?]; discriminate].
      intros Hin. apply list_elem_of_In in Hin. cbn in Hin.
      destruct Hin as [H|[]]; discriminate H.
  - eexists; cbn [final trace fs].
    split; [reflexivity|]. split; [reflexivity|].
    split; [auto|]. split; [discriminate|].
    split; [|intros [? ?]; discriminate].
    intros Hin. apply list_elem_of_In in Hin. cbn in Hin.
    destruct Hin as [H|[]]; discriminate H.
Qed.

(** ** Failing early, and what the secondary step leaves alone *)



(** X11. A returning [generate_jupyter_config] leaves every file outside
    /home/jupyteruser exactly as it was, content, owner and mode; every
    file under /home/jupyteruser ends with mode 0700 and, when the account
    jupyteruser is known, with that owner and group. *)
Theorem jupyter_config_frame h s u s' :
  generate_jupyter_config h s = Done u s' ->
  (forall p, under "/home/jupyteruser" p = false -> fs s' !! p = fs s !! p) /\
  (forall p f, fs s' !! p = Some f -> under "/home/jupyteruser" p = true ->
     fmode f = 448%N /\
     forall uid gid,
       passwd h !! "jupyteruser" = Some uid ->
       group h !! "jupyteruser" = Some gid -> fowner f = (uid, gid)).
Proof.
  intros Hrun. unfold generate_jupyter_config in Hrun.
  apply bind_Done in Hrun as (apps_cfg & s1 & Hload & Hrun).
  apply bind_Done in Hrun as (token & s2 & Htok & Hrun).
  apply bind_Done in Hrun as ([] & s3 & Hdump & Hrun).
  apply bind_Done in Hrun as ([] & s4 & Hown & Hmod).
  apply get_config_Done in Hload as (f0 & d & _ & _ & _ & ->).
  unfold getitem in Htok. destruct (get "JUPYTER_TOKEN" apps_cfg); [|discriminate].
  injection Htok as _ <-.
  unfold json_dump in Hdump. injection Hdump as <-.
  unfold chmod_R in Hmod. injection Hmod as _ <-.
  fold jupyter_config_file in *. revert Hown. unfold chown_R. unfold_state.
  set (written := <[jupyter_config_file := _]> (fs s)).
  assert (Hout : forall p, under "/home/jupyteruser" p = false ->
                           written !! p = fs s !! p).
  { intros p Hp. unfold written. apply lookup_insert_ne. intros <-.
    vm_compute in Hp. discriminate Hp. }
  destruct (passwd h !! "jupyteruser") as [uid|],
           (group h !! "jupyteruser") as [gid|];
    intros [= <-]; unfold_state; (split; [intros p Hp | intros p f Hf Hp]);
    rewrite ?map_lookup_imap in *.
  all: try (rewrite Hout by exact Hp;
            destruct (fs s !! p) as [f1|]; cbn; rewrite ?Hp; reflexivity).
  all: destruct (written !! p) as [f1|]; cbn in Hf; rewrite ?Hp in Hf;
    try discriminate Hf; injection Hf as <-; cbn [fmode fowner];
    split; [reflexivity|]; intros uid' gid' Hu Hg; congruence.
Qed.

Lemma jupyter_config_frame_witness :
  let h := Fixture.container ∅ 0 0 in
  let s := Fixture.restart Fixture.secrets_on_disk in
  exists s' f,
    generate_jupyter_config h s = Done tt s' /\
    fs s' !! apps_config_file = fs s !! apps_config_file /\
    fs s' !! jupyter_config_file = Some f /\
    fmode f = 448%N /\ fowner f = (1001%N, 1001%N).
Proof.
  intros h s. set (s' := final (generate_jupyter_config h s)).
  assert (Hrun : generate_jupyter_config h s = Done tt s')
    by (vm_compute; reflexivity).
  destruct (jupyter_config_frame h s tt s' Hrun) as [Hout Hin].
  assert (Hf : exists f, fs s' !! jupyter_config_file = Some f)
    by (eexists; vm_compute; reflexivity).
  destruct Hf as [f Hf].
  destruct (Hin _ f Hf eq_refl) as [Hmode Hown].
  exists s', f. split; [exact Hrun|].
  split; [apply Hout; reflexivity|]. split; [exact Hf|].
  split; [exact Hmode | now apply Hown].
Defined.

(** ** Running again *)

(** The documents a completed run leaves on disk. *)
Lemma main_Done_documents h fuel s u s' :
  main h fuel s = Done u s' ->
  exists d,
    content_at s' apps_config_file = Some (Json d) /\
    content_at s' jupyter_config_file
      = Some (Json [("JUPYTER_TOKEN", jupyter_token h (drawn s + 208) d)]) /\
    (fs s !! apps_config_file = None -> d = apps_config h (drawn s)) /\
    (forall f, fs s !! apps_config_file = Some f -> fcontent f = Json d).
Proof.
  intros Hrun.
  apply main_Done in Hrun as (s0 & cfg0 & s1 & s2 & H0 & H1 & H2 & H3).
  destruct (create_markers_Done _ _ _ _ H0)
    as (ub & gb & uj & gj & Hub & Hgb & Huj & Hgj).
  destruct (create_markers_run h s ub gb uj gj Hub Hgb Huj Hgj)
    as (s0' & H0' & _ & _ & _ & Hdr0 & _ & Hframe).
  rewrite H0 in H0'. injection H0' as <-.
  assert (Hsame : fs s0 !! apps_config_file = fs s !! apps_config_file)
    by (apply Hframe; paths_differ).
  destruct (setup_apps_Done_primary _ _ _ _ _ H1)
    as (f & d & Hf & Hd & Hdr1 & Hfirst & Hrestart).
  destruct (generate_jupyter_config_run h s1 f d Hf Hd)
    as (s2' & H2' & _ & Hjup & Hother & _ & _).
  unfold setup_jupyter in H2. rewrite H2 in H2'. injection H2' as <-.
  apply remove_markers_Done in H3 as ->.
  rewrite Hdr1, Hdr0 in Hjup.
  exists d. unfold content_at in *. cbn [fs].
  rewrite !lookup_delete_ne by paths_differ.
  split; [rewrite Hother by paths_differ; now rewrite Hf, <- Hd|].
  split; [exact Hjup|]. rewrite <- Hsame. split.
  - intros Habs. rewrite (Hfirst Habs).
    apply setup_apps_Done in H1 as (sc & n & p & env & Hpath & _).
    fold apps_config_file in Hpath.
    destruct Hpath as [[_ Hgen]|[[f1 Hf1] _]]; [|congruence].
    apply generate_apps_config_Done in Hgen as (uid & gid & _ & _ & Hcfg & _).
    now rewrite Hcfg, Hdr0.
  - intros f1 Hf1.
    destruct Hrestart as [Hfs _]; [eauto|].
    rewrite Hfs, Hf1 in Hf. now injection Hf as ->.
Qed.

Lemma get_default_jupyter_token h n :
  get "JUPYTER_TOKEN" (default_document (secrets_from h n secret_sizes))
    = Some (hex (map (entropy h) (seq n 32))).
Proof. reflexivity. Qed.

(** The token copied from a generated document does not depend on the
    entropy left. *)
Lemma jupyter_token_generated h n n1 n2 :
  jupyter_token h n1 (apps_config h n) = jupyter_token h n2 (apps_config h n).
Proof.
  unfold jupyter_token.
  destruct (environ h !! "JUPYTER_TOKEN") eqn:Henv; [reflexivity|].
  rewrite get_apps_config by in_list.
  rewrite Henv, get_default_jupyter_token. reflexivity.
Qed.

(** X12. Running [main] again after a first run that completed, with the
    same environment, changes neither document: the restart loads the
    configuration the first run generated and writes the same token to the
    secondary document. *)
Theorem rerun_keeps_documents h fuel1 fuel2 s s1 s2 :
  fs s !! apps_config_file = None ->
  main h fuel1 s = Done tt s1 ->
  main h fuel2 s1 = Done tt s2 ->
  content_at s2 apps_config_file = content_at s1 apps_config_file /\
  content_at s2 jupyter_config_file = content_at s1 jupyter_config_file /\
  content_at s1 apps_config_file = Some (Json (apps_config h (drawn s))).
Proof.
  intros Habs Hrun1 Hrun2.
  destruct (main_Done_documents _ _ _ _ _ Hrun1) as (d1 & Hp1 & Hj1 & Hgen & _).
  destruct (main_Done_documents _ _ _ _ _ Hrun2) as (d2 & Hp2 & Hj2 & _ & Hload).
  specialize (Hgen Habs). subst d1.
  assert (Hd : d2 = apps_config h (drawn s)).
  { unfold content_at in Hp1.
    destruct (fs s1 !! apps_config_file) as [f|] eqn:Hf; [|discriminate].
    change (Some (fcontent f) = Some (Json (apps_config h (drawn s)))) in Hp1.
    injection Hp1 as Hc. specialize (Hload f eq_refl).
    rewrite Hc in Hload. injection Hload as <-. reflexivity. }
  subst d2.
  rewrite Hp1, Hp2, Hj1, Hj2,
    (jupyter_token_generated h (drawn s) (drawn s1 + 208) (drawn s + 208)).
  split; [reflexivity|]. split; reflexivity.
Qed.

Lemma rerun_keeps_documents_witness :
  let h := Fixture.container ∅ 0 0 in
  let s1 := final (main h 3 Fixture.first_start) in
  let s2 := final (main h 3 s1) in
  (fs Fixture.first_start !! apps_config_file = None /\
   main h 3 Fixture.first_start = Done tt s1 /\
   main h 3 s1 = Done tt s2) /\
  content_at s2 apps_config_file = content_at s1 apps_config_file /\
  content_at s2 jupyter_config_file = content_at s1 jupyter_config_file.
Proof.
  intros h s1 s2.
  assert (H1 : main h 3 Fixture.first_start = Done tt s1)
    by (vm_compute; reflexivity).
  assert (H2 : main h 3 s1 = Done tt s2) by (vm_compute; reflexivity).
  split; [split; [vm_compute; reflexivity | split; [exact H1 | exact H2]]|].
  destruct (rerun_keeps_documents h 3 3 Fixture.first_start s1 s2
              eq_refl H1 H2) as (Hp & Hj & _).
  split; [exact Hp | exact Hj].
Defined.

(** ** The default document *)

(** X13. [generate_default_config] returns the canonical keys in order,
    with the seven literal defaults and eight secrets; the secrets render
    eight consecutive segments, of 32, 8, 8, 32, 32, 32, 32 and 32 bytes,
    that together are exactly the next 208 bytes of entropy, so no byte
    serves two secrets. *)
Theorem default_config_shape h s :
  exists cfg bss,
    generate_default_config h s = Done cfg (set_drawn (drawn s + 208) s) /\
    keys cfg = canonical_keys /\
    map (fun k => get k cfg) (take 7 canonical_keys)
      = map Some ["production"; "info"; "briefer"; "briefer"; "localhost";
                  "5432"; "briefer"] /\
    map (fun k => get k cfg) secret_keys = map (fun bs => Some (hex bs)) bss /\
    map length bss = secret_sizes /\
    concat bss = map (entropy h) (seq (drawn s) 208).
Proof.
  set (n := drawn s).
  exists (default_document (secrets_from h n secret_sizes)),
    [ map (entropy h) (seq n 32);
      map (entropy h) (seq (n + 32) 8);
      map (entropy h) (seq (n + 32 + 8) 8);
      map (entropy h) (seq (n + 32 + 8 + 8) 32);
      map (entropy h) (seq (n + 32 + 8 + 8 + 32) 32);
      map (entropy h) (seq (n + 32 + 8 + 8 + 32 + 32) 32);
      map (entropy h) (seq (n + 32 + 8 + 8 + 32 + 32 + 32) 32);
      map (entropy h) (seq (n + 32 + 8 + 8 + 32 + 32 + 32 + 32) 32) ].
  split; [apply generate_default_config_run|].
  split; [reflexivity|]. split; [reflexivity|]. split; [reflexivity|].
  split.
  - cbn [map]. rewrite !length_map, !length_seq. reflexivity.
  - cbn [concat]. rewrite app_nil_r, <- !map_app. f_equal.
    change 208 with (32 + (8 + (8 + (32 + (32 + (32 + (32 + 32))))))).
    rewrite !seq_app. reflexivity.
Qed.
